(** * The Nuxt render middleware ([packages/server/src/middleware/nuxt.js])

    A shallow embedding of [nuxtMiddleware] and of its three helpers
    [defaultPushAssets], [getCspString] and [transformPolicyObject],
    followed by the properties of the response they produce.

    Conventions of the embedding.
    - A JavaScript string is a [string]; [Buffer.byteLength] is its length,
      the string being taken in its UTF-8 encoding.
    - A JavaScript [Set] is the list of its elements in insertion order;
      [Set.prototype.add] appends an element that is not yet there.
    - A JavaScript object used as a mapping is the list of its own
      properties in enumeration order.
    - What the middleware does to the response, to the hook dispatcher, to
      the logger and to [next] is recorded, in program order, as a list
      of [Event]s.
    - An exception is a value of [JsError]; a call that may throw returns an
      [Outcome]. The renderer, the awaited hook, [getPreloadFiles],
      [shouldPush], [pushAssets], [decodeURI] and the property accesses of
      the handler itself may throw; [res.setHeader] and [res.end] are taken
      not to. Node's [res.end] does throw a RangeError when the status code
      is outside 100..999, which only a status read from the error object at
      line 29 can be: what is stated about the body of an error response
      is stated for a status that [res.end] accepts ([statusAccepted]). *)

From Stdlib Require Import String Ascii List ZArith Bool Lia.
Import ListNotations.

Open Scope string_scope.
Open Scope list_scope.
Open Scope Z_scope.

(** ** JavaScript values used by the middleware *)

Inductive JsError : Type :=
| TypeError (message : string)   (* raised by the language itself *)
| Thrown (payload : string).     (* raised by a collaborator *)

Inductive Outcome (A : Type) : Type :=
| Returned (a : A)
| Threw (e : JsError).

Arguments Returned {A} a.
Arguments Threw {A} e.

(** [Array.prototype.join] on an array of strings. *)
Definition join (sep : string) (l : list string) : string :=
  String.concat sep l.

(** *** [Set] of strings *)

Definition JsSet : Type := list string.

Definition set_has (x : string) (s : JsSet) : bool :=
  existsb (String.eqb x) s.

Definition set_add (x : string) (s : JsSet) : JsSet :=
  if set_has x s then s else s ++ [x].

(** [new Set(array)] *)
Definition set_of_array (l : list string) : JsSet :=
  fold_left (fun s x => set_add x s) l [].

(** [set.forEach(x => target.add(x))] *)
Definition set_add_all (src : JsSet) (target : JsSet) : JsSet :=
  fold_left (fun s x => set_add x s) src target.

(** *** Objects as ordered property lists *)

Definition JsObject (V : Type) : Type := list (string * V).

(** [obj[k]] on own properties. *)
Fixpoint obj_get {V : Type} (k : string) (o : JsObject V) : option V :=
  match o with
  | [] => None
  | (k', v) :: o' => if String.eqb k k' then Some v else obj_get k o'
  end.

(** Defining property [k]: an existing property keeps its place, a new one
    goes last. *)
Fixpoint obj_set {V : Type} (k : string) (v : V) (o : JsObject V) : JsObject V :=
  match o with
  | [] => [(k, v)]
  | (k', v') :: o' =>
      if String.eqb k k' then (k, v) :: o' else (k', v') :: obj_set k v o'
  end.

(** ** Data model *)

Record PreloadEntry : Type := {
  file : string;
  asType : string;
  fileWithoutQuery : string;
  modern : bool
}.

(** The error object: only [statusCode] is read; it may be missing. *)
Record NuxtError : Type := {
  statusCode : option Z
}.

(** [a || d] where [a] is a number or [undefined]: [0] is falsy. *)
Definition number_or (a : option Z) (d : Z) : Z :=
  match a with
  | Some n => if n =? 0 then d else n
  | None => d
  end.

Record RenderResult : Type := {
  html : string;
  cspScriptSrcHashSet : JsSet;
  error : option NuxtError;
  redirected : bool;
  getPreloadFiles : unit -> Outcome (list PreloadEntry)
}.

(** [context.nuxt] is installed by the renderer; [getContext] alone does
    not create it. *)
Record NuxtState : Type := {
  nuxt_error : option NuxtError
}.

Record Context : Type := {
  ctx_redirected : bool;
  ctx_nuxt : option NuxtState
}.

(** A value of a [csp.policies] entry: an array of sources, or something
    that is not an array (a bare string). *)
Inductive PolicyValue : Type :=
| PArray (sources : list string)
| PString (s : string).

Definition Policies : Type := JsObject PolicyValue.

Record CspOptions : Type := {
  allowedSources : option (list string);  (* [None]: not an array *)
  policies : option Policies;             (* [None]: not a plain object *)
  reportOnly : bool
}.

(** [shouldPush(fileWithoutQuery, asType)] and
    [pushAssets(req, res, publicPath, preloadFiles)] are user functions:
    [None] when unset. [pushAssets] is taken to compute its links from the
    public path and the preload files only. *)
Record Http2Options : Type := {
  push : bool;
  shouldPush : option (string -> string -> Outcome bool);
  pushAssets : option (string -> list PreloadEntry -> Outcome (list string))
}.

(** The options handed to the [etag] package. *)
Record EtagOptions : Type := {
  weak : bool
}.

(** [etag] and [csp] are [None] when the option is falsy; [csp: true] is
    [Some] of a record without sources and policies. *)
Record RenderOptions : Type := {
  etag : option EtagOptions;
  http2 : Http2Options;
  csp : option CspOptions
}.

(** [build_crossorigin] is [options.build.crossorigin]: a string or
    [undefined]. *)
Record Options : Type := {
  render : RenderOptions;
  dev : bool;
  build_crossorigin : option string
}.

Record Request : Type := {
  req_url : string;
  req_headers : list (string * string)
}.

(** ** Effects *)

Inductive HeaderValue : Type :=
| HString (s : string)
| HNumber (n : Z).

Inductive Event : Type :=
| SetStatus (code : Z)                         (* res.statusCode = code *)
| SetHeader (name : string) (value : HeaderValue)
| End (body : option string)                   (* res.end() / res.end(html, 'utf8') *)
| CallHook (name url : string) (result : RenderResult) (context : Context)
| ConsolaWarn (message : string)
| ConsolaError (err : JsError)
| Next (err : JsError).

(** The state threaded through the handler: what it has done so far and the
    request context, which the renderer and the hooks may update. *)
Record State : Type := {
  events : list Event;
  context : Context
}.

Definition M (A : Type) : Type := State -> Outcome A * State.

Definition ret {A : Type} (a : A) : M A := fun s => (Returned a, s).

Definition throw {A : Type} (e : JsError) : M A := fun s => (Threw e, s).

Definition bind {A B : Type} (m : M A) (k : A -> M B) : M B :=
  fun s =>
    match m s with
    | (Returned a, s') => k a s'
    | (Threw e, s') => (Threw e, s')
    end.

Definition emit (e : Event) : M unit :=
  fun s => (Returned tt, {| events := events s ++ [e]; context := context s |}).

Definition get_context : M Context := fun s => (Returned (context s), s).

Definition put_context (c : Context) : M unit :=
  fun s => (Returned tt, {| events := events s; context := c |}).

Definition lift {A : Type} (o : Outcome A) : M A := fun s => (o, s).

(** [try { body } catch (err) { handler(err) }] *)
Definition try_catch {A : Type} (body : M A) (handler : JsError -> M A) : M A :=
  fun s =>
    match body s with
    | (Returned a, s') => (Returned a, s')
    | (Threw e, s') => handler e s'
    end.

Declare Scope js_scope.
Delimit Scope js_scope with js.
Notation "x <- m ;; k" := (bind m (fun x => k))
  (at level 100, m at next level, right associativity) : js_scope.
Notation "m ;; k" := (bind m (fun _ => k))
  (at level 100, right associativity) : js_scope.
Open Scope js_scope.

(** [array.forEach(callback)] where the callback updates a local variable
    (here the array [links]) and may throw, which ends the iteration. *)
Fixpoint forEach {A S : Type} (callback : S -> A -> M S) (l : list A) (acc : S) : M S :=
  match l with
  | [] => ret acc
  | x :: l' => acc' <- callback acc x ;; forEach callback l' acc'
  end.

(** [array.map(f)] with a callback that may throw. *)
Fixpoint map_outcome {A B : Type} (f : A -> Outcome B) (l : list A) : Outcome (list B) :=
  match l with
  | [] => Returned []
  | x :: l' =>
      match f x with
      | Threw e => Threw e
      | Returned y =>
          match map_outcome f l' with
          | Threw e => Threw e
          | Returned ys => Returned (y :: ys)
          end
      end
  end.

(** ** [transformPolicyObject] (lines 136-149) *)

(** [policies['script-src'] && Array.isArray(policies['script-src'])]: the
    array when this is truthy. *)
Definition userHasDefinedScriptSrc (policies : Policies) : option (list string) :=
  match obj_get "script-src" policies with
  | Some (PArray sources) => Some sources   (* truthy and an array *)
  | _ => None
  end.

(** Returns the new policy object together with the hash set after the call:
    [hashAndPolicySet] is the very set that was passed in, so the caller's
    set is updated. *)
Definition transformPolicyObject (policies : Policies) (cspScriptSrcHashSet : JsSet)
  : Policies * JsSet :=
  let hashAndPolicySet := set_add "'self'" cspScriptSrcHashSet in
  let hashAndPolicySet :=
    match userHasDefinedScriptSrc policies with
    | Some sources => set_add_all (set_of_array sources) hashAndPolicySet
    | None => hashAndPolicySet
    end in
  (obj_set "script-src" (PArray hashAndPolicySet) policies, hashAndPolicySet).

(** ** [getCspString] (lines 117-134) *)

(** The callback of [Object.entries(..).map]: [v.join] exists on arrays only. *)
Definition directiveString (kv : string * PolicyValue) : Outcome string :=
  let (k, v) := kv in
  match v with
  | PArray sources => Returned (k ++ " " ++ join " " sources)%string
  | PString _ => Threw (TypeError "v.join is not a function")
  end.

Definition baseCspStr (cspScriptSrcHashSet : JsSet) (isDev : bool) : string :=
  let joinedHashSet := join " " cspScriptSrcHashSet in
  ("script-src 'self'" ++ (if isDev then " 'unsafe-eval'" else "")
     ++ " " ++ joinedHashSet)%string.

(** The result is the header value (or the exception) and the hash set as
    the call leaves it. *)
Definition getCspString (cspScriptSrcHashSet : JsSet)
    (allowedSources : option (list string)) (policies : option Policies)
    (isDev : bool) : Outcome string * JsSet :=
  match allowedSources with
  | Some sources =>
      (Returned (baseCspStr cspScriptSrcHashSet isDev ++ " " ++ join " " sources)%string,
       cspScriptSrcHashSet)
  | None =>
      match policies with
      | Some policyObject =>
          let (transformedPolicyObject, hashSet') :=
            transformPolicyObject policyObject cspScriptSrcHashSet in
          (match map_outcome directiveString transformedPolicyObject with
           | Returned directives => Returned (join "; " directives)
           | Threw e => Threw e
           end, hashSet')
      | None => (Returned (baseCspStr cspScriptSrcHashSet isDev), cspScriptSrcHashSet)
      end
  end.

(** ** [defaultPushAssets] (lines 90-115) *)

(** A string is falsy when it is empty. *)
Definition truthy_string (o : option string) : option string :=
  match o with
  | Some "" => None
  | other => other
  end.

Definition linkOf (publicPath : string) (options : Options) (entry : PreloadEntry) : string :=
  let crossorigin := build_crossorigin options in
  let cors :=
    match truthy_string crossorigin with
    | Some c => (" crossorigin=" ++ c ++ ";")%string
    | None => ""
    end in
  let ref := if modern entry then "modulepreload" else "preload" in
  ("<" ++ publicPath ++ file entry ++ ">; rel=" ++ ref ++ ";" ++ cors
       ++ " as=" ++ asType entry)%string.

(** The body of the [forEach] callback, [links] being the array it pushes to. *)
Definition pushLink (shouldPush : option (string -> string -> Outcome bool))
    (publicPath : string) (options : Options)
    (links : list string) (entry : PreloadEntry) : M (list string) :=
  match shouldPush with
  | None =>
      if negb (String.eqb (asType entry) "script")
         && negb (String.eqb (asType entry) "style")
      then ret links
      else ret (links ++ [linkOf publicPath options entry])
  | Some predicate =>
      approved <- lift (predicate (fileWithoutQuery entry) (asType entry)) ;;
      if negb approved then ret links
      else ret (links ++ [linkOf publicPath options entry])
  end.

Definition defaultPushAssets (preloadFiles : list PreloadEntry)
    (shouldPush : option (string -> string -> Outcome bool))
    (publicPath : string) (options : Options) : M (list string) :=
  (match shouldPush with
   | Some _ =>
       if dev options
       then emit (ConsolaWarn
                    "http2.shouldPush is deprecated. Use http2.pushAssets function")
       else ret tt
   | None => ret tt
   end) ;;
  forEach (pushLink shouldPush publicPath options) preloadFiles [].

(** ** [nuxtMiddleware] (lines 7-88) *)

(** The render result after its hash set, a shared object, was updated. *)
Definition withHashSet (result : RenderResult) (hashSet : JsSet) : RenderResult :=
  {| html := html result;
     cspScriptSrcHashSet := hashSet;
     error := error result;
     redirected := redirected result;
     getPreloadFiles := getPreloadFiles result |}.

(** What [renderRoute(url, context)] did: its result or exception, and the
    context as it left it. *)
Record Rendered : Type := {
  render_outcome : Outcome RenderResult;
  render_context : Context
}.

(** What the awaited [render:route] handlers did; they receive [result] and
    [context] by reference and may change both. *)
Record Hooked : Type := {
  hook_outcome : Outcome unit;
  hook_result : RenderResult;
  hook_context : Context
}.

Record Nuxt : Type := {
  callHook : string -> string -> RenderResult -> Context -> Hooked
}.

Record ClientManifest : Type := {
  publicPath : string
}.

Record Resources : Type := {
  clientManifest : option ClientManifest
}.

(** The argument [{ options, nuxt, renderRoute, resources }] of the factory. *)
Record Params : Type := {
  options : Options;
  nuxt : Nuxt;
  renderRoute : string -> Context -> Rendered;
  resources : Resources
}.

(** The value the handler returns. *)
Inductive ReturnValue : Type :=
| RetHtml (html : string)
| RetUndefined
| RetError (err : JsError).

Section Middleware.

(** The imported functions: [getContext] of [@nuxt/common], the global
    [decodeURI], [etag] and [fresh]. *)
Variable getContext : Request -> Context.
Variable decodeURI : string -> Outcome string.
Variable generateETag : string -> EtagOptions -> string.
Variable fresh : list (string * string) -> string -> bool.

(** [await renderRoute(url, context)] *)
Definition awaitRenderRoute (p : Params) (url : string) : M RenderResult :=
  context <- get_context ;;
  let r := renderRoute p url context in
  put_context (render_context r) ;;
  lift (render_outcome r).

(** [await nuxt.callHook('render:route', url, result, context)] *)
Definition awaitRenderRouteHook (p : Params) (url : string) (result : RenderResult)
  : M RenderResult :=
  context <- get_context ;;
  emit (CallHook "render:route" url result context) ;;
  let h := callHook (nuxt p) "render:route" url result context in
  put_context (hook_context h) ;;
  lift (hook_outcome h) ;;
  ret (hook_result h).

(** [nuxt.callHook('render:routeDone', url, result, context)], not awaited:
    its handlers run after the handler has returned. *)
Definition routeDone (url : string) (result : RenderResult) : M unit :=
  context <- get_context ;;
  emit (CallHook "render:routeDone" url result context).

(** Lines 28-30. *)
Definition setErrorStatus (result : RenderResult) : M unit :=
  match error result with
  | None => ret tt
  | Some _ =>
      context <- get_context ;;
      match ctx_nuxt context with
      | None => throw (TypeError "Cannot read property 'error' of undefined")
      | Some nuxtState =>
          match nuxt_error nuxtState with
          | None => throw (TypeError "Cannot read property 'statusCode' of null")
          | Some err => emit (SetStatus (number_or (statusCode err) 500))
          end
      end
  end.

(** Lines 45-63. *)
Definition pushHeaders (p : Params) (result : RenderResult) : M unit :=
  match error result with
  | None =>
      if push (http2 (render (options p))) then
        preloadFiles <- lift (getPreloadFiles result tt) ;;
        match clientManifest (resources p) with
        | None => throw (TypeError "Cannot destructure property 'publicPath' of undefined")
        | Some manifest =>
            links <-
              match pushAssets (http2 (render (options p))) with
              | Some custom => lift (custom (publicPath manifest) preloadFiles)
              | None =>
                  defaultPushAssets preloadFiles (shouldPush (http2 (render (options p))))
                    (publicPath manifest) (options p)
              end ;;
            match links with
            | [] => ret tt
            | _ :: _ => emit (SetHeader "Link" (HString (join ", " links)))
            end
        end
      else ret tt
  | Some _ => ret tt
  end.

Definition cspHeader (c : CspOptions) : string :=
  if reportOnly c then "Content-Security-Policy-Report-Only" else "Content-Security-Policy".

(** Lines 65-70. [getCspString] works on the hash set of the render result
    itself, so the result comes back with the set as the call left it. *)
Definition cspHeaders (p : Params) (result : RenderResult) : M RenderResult :=
  match csp (render (options p)) with
  | None => ret result
  | Some c =>
      let (value, hashSet') :=
        getCspString (cspScriptSrcHashSet result) (allowedSources c) (policies c)
          (dev (options p)) in
      v <- lift value ;;
      emit (SetHeader (cspHeader c) (HString v)) ;;
      ret (withHashSet result hashSet')
  end.

(** Lines 72-78. *)
Definition sendResponse (url : string) (result : RenderResult) : M ReturnValue :=
  emit (SetHeader "Content-Type" (HString "text/html; charset=utf-8")) ;;
  emit (SetHeader "Accept-Ranges" (HString "none")) ;;
  emit (SetHeader "Content-Length" (HNumber (Z.of_nat (String.length (html result))))) ;;
  emit (End (Some (html result))) ;;
  routeDone url result ;;
  ret (RetHtml (html result)).

(** Lines 44-78: what follows the ETag block. *)
Definition afterETag (p : Params) (url : string) (result : RenderResult) : M ReturnValue :=
  pushHeaders p result ;;
  result' <- cspHeaders p result ;;
  sendResponse url result'.

(** Lines 24-78: what the handler does with the render result. *)
Definition respond (p : Params) (req : Request) (url : string) (result : RenderResult)
  : M ReturnValue :=
  if redirected result then
    routeDone url result ;;
    ret (RetHtml (html result))
  else
    setErrorStatus result ;;
    match error result, etag (render (options p)) with
    | None, Some etagOptions =>
        let etag := generateETag (html result) etagOptions in
        if fresh (req_headers req) etag then
          emit (SetStatus 304) ;;
          emit (End None) ;;
          routeDone url result ;;
          ret RetUndefined
        else
          emit (SetHeader "ETag" (HString etag)) ;;
          afterETag p url result
    | _, _ => afterETag p url result
    end.

(** The body of the [try] block, lines 14-78. *)
Definition tryBlock (p : Params) (req : Request) (url : string) : M ReturnValue :=
  result <- awaitRenderRoute p url ;;
  result <- awaitRenderRouteHook p url result ;;
  respond p req url result.

(** The [catch] block, lines 79-87. *)
Definition catchBlock (err : JsError) : M ReturnValue :=
  context <- get_context ;;
  if ctx_redirected context then
    emit (ConsolaError err) ;;
    ret (RetError err)
  else
    emit (Next err) ;;
    ret RetUndefined.

(** The handler. [Threw] is the rejection of the promise it returns: an
    exception of [decodeURI], which is outside the [try]. *)
Definition nuxtMiddleware (p : Params) (req : Request) : Outcome ReturnValue * State :=
  let start := {| events := []; context := getContext req |} in
  match decodeURI (req_url req) with
  | Threw e => (Threw e, start)
  | Returned url =>
      (emit (SetStatus 200) ;;
       try_catch (tryBlock p req url) catchBlock) start
  end.

End Middleware.

(** ** Observations on the recorded events *)

(** The names of the headers set, in order. *)
Definition headersSet (evs : list Event) : list string :=
  flat_map (fun e => match e with SetHeader name _ => [name] | _ => [] end) evs.

(** The value a header was last set to. *)
Definition headerStep (name : string) (acc : option HeaderValue) (e : Event)
  : option HeaderValue :=
  match e with
  | SetHeader name' v => if String.eqb name name' then Some v else acc
  | _ => acc
  end.

Definition headerValue (name : string) (evs : list Event) : option HeaderValue :=
  fold_left (headerStep name) evs None.

(** The values assigned to [res.statusCode], in order. *)
Definition statusCodes (evs : list Event) : list Z :=
  flat_map (fun e => match e with SetStatus code => [code] | _ => [] end) evs.

(** The arguments of the calls of [res.end]. *)
Definition bodiesWritten (evs : list Event) : list (option string) :=
  flat_map (fun e => match e with End body => [body] | _ => [] end) evs.

(** The render results handed to hook [name], in order. *)
Definition hookCalls (name : string) (evs : list Event) : list RenderResult :=
  flat_map
    (fun e =>
       match e with
       | CallHook name' _ result _ => if String.eqb name name' then [result] else []
       | _ => []
       end) evs.

(** The errors passed to [next]. *)
Definition forwarded (evs : list Event) : list JsError :=
  flat_map (fun e => match e with Next err => [err] | _ => [] end) evs.

(** The errors passed to [consola.error]. *)
Definition logged (evs : list Event) : list JsError :=
  flat_map (fun e => match e with ConsolaError err => [err] | _ => [] end) evs.

(** [s.includes(pattern)] *)
Fixpoint includes (pattern s : string) : bool :=
  if String.prefix pattern s then true
  else match s with
       | EmptyString => false
       | String _ s' => includes pattern s'
       end.

(** No character of the string is a space. *)
Fixpoint spaceFree (s : string) : bool :=
  match s with
  | EmptyString => true
  | String c s' => negb (Ascii.eqb c " ") && spaceFree s'
  end.

(** Default selection of line 99: scripts and styles. *)
Definition scriptOrStyle (entry : PreloadEntry) : bool :=
  String.eqb (asType entry) "script" || String.eqb (asType entry) "style".

(** A computation is [framed] by [P] when it leaves the context alone and
    only appends events that satisfy [P], whether it returns or throws. *)
Definition framed {A : Type} (P : Event -> Prop) (m : M A) : Prop :=
  forall s, exists evs,
    snd (m s) = {| events := events s ++ evs; context := context s |} /\ Forall P evs.

(** The events of the blocks after the ETag block: headers, the body, hook
    calls and warnings. *)
Definition isQuiet (e : Event) : Prop :=
  match e with
  | SetStatus _ | ConsolaError _ | Next _ => False
  | _ => True
  end.

(** The events of the [try] block: all but those of the [catch] block. *)
Definition notCaught (e : Event) : Prop :=
  match e with
  | ConsolaError _ | Next _ => False
  | _ => True
  end.

(** The state in which the [try] block starts. *)
Definition initial_state (getContext : Request -> Context) (req : Request) : State :=
  {| events := [SetStatus 200]; context := getContext req |}.

(** The status codes with which Node's [res.end] writes the head; it throws
    a RangeError for any other. *)
Definition statusAccepted (code : Z) : bool :=
  (100 <=? code) && (code <=? 999).

(** The condition under which the handler reaches lines 36-39: no redirect,
    no error, [etag] enabled and the request fresh for the computed tag. *)
Definition notModified (generateETag : string -> EtagOptions -> string)
    (fresh : list (string * string) -> string -> bool)
    (p : Params) (req : Request) (result : RenderResult) : bool :=
  negb (redirected result)
  && match error result, etag (render (options p)) with
     | None, Some etagOptions => fresh (req_headers req) (generateETag (html result) etagOptions)
     | _, _ => false
     end.

(** The event of line 41, when [etag] is enabled. *)
Definition etagEvents (generateETag : string -> EtagOptions -> string)
    (p : Params) (result : RenderResult) : list Event :=
  match etag (render (options p)) with
  | Some etagOptions => [SetHeader "ETag" (HString (generateETag (html result) etagOptions))]
  | None => []
  end.

(** The event of line 61, for the array [links]. *)
Definition linkEvents (links : list string) : list Event :=
  match links with
  | [] => []
  | _ :: _ => [SetHeader "Link" (HString (join ", " links))]
  end.

(** The events of lines 73-77. *)
Definition sendEvents (url : string) (result : RenderResult) (context : Context)
  : list Event :=
  [ SetHeader "Content-Type" (HString "text/html; charset=utf-8");
    SetHeader "Accept-Ranges" (HString "none");
    SetHeader "Content-Length" (HNumber (Z.of_nat (String.length (html result))));
    End (Some (html result));
    CallHook "render:routeDone" url result context ].

(** The state in which the [try] block reaches line 16: status 200 has been
    set and the [render:route] handlers, called with the renderer's result
    [before] and context [c0], have resolved and left context [ctx]. *)
Definition rendered_state (url : string) (before : RenderResult) (c0 ctx : Context) : State :=
  {| events := [SetStatus 200; CallHook "render:route" url before c0]; context := ctx |}.

(** ** Further observations *)

(** What the handler did after its first call of [res.end]. *)
Fixpoint afterEnd (evs : list Event) : list Event :=
  match evs with
  | [] => []
  | End _ :: rest => rest
  | _ :: rest => afterEnd rest
  end.

(** The messages passed to [consola.warn]. *)
Definition warnings (evs : list Event) : list string :=
  flat_map (fun e => match e with ConsolaWarn message => [message] | _ => [] end) evs.

(** The directive names of a policy object, in enumeration order. *)
Definition directives (pol : Policies) : list string := map fst pol.

(** [Array.isArray(v)] for a policy value. *)
Definition isArray (v : PolicyValue) : bool :=
  match v with
  | PArray _ => true
  | PString _ => false
  end.

(** Every directive other than [script-src] has an array as value. *)
Definition arrayValued (pol : Policies) : bool :=
  forallb (fun kv => String.eqb (fst kv) "script-src" || isArray (snd kv)) pol.

(** The events of the push and CSP blocks: a header other than ETag, or a
    warning. *)
Definition pushOrCsp (e : Event) : Prop :=
  match e with
  | SetHeader name _ => name <> "ETag"
  | ConsolaWarn _ => True
  | _ => False
  end.

(** The events that come before the response is ended or an error is
    handled: status, headers, warnings and the [render:route] hook. *)
Definition preparing (e : Event) : Prop :=
  match e with
  | SetStatus _ | SetHeader _ _ | ConsolaWarn _ => True
  | CallHook name _ _ _ => name = "render:route"
  | End _ | ConsolaError _ | Next _ => False
  end.

(** The forms a run of the handler can take, as the events recorded and the
    outcome of the promise: the error handled by [next] or by the logger
    after some preparation, the redirect exit, the 304 exit, the response
    sent, or the rejection before anything was done. *)
Inductive Run : list Event -> Outcome ReturnValue -> Prop :=
| RunForwarded (pre : list Event) (err : JsError) :
    Forall preparing pre ->
    Run (pre ++ [Next err]) (Returned RetUndefined)
| RunLogged (pre : list Event) (err : JsError) :
    Forall preparing pre ->
    Run (pre ++ [ConsolaError err]) (Returned (RetError err))
| RunRedirected (pre : list Event) (url : string) (r : RenderResult) (c : Context) :
    Forall preparing pre ->
    Run (pre ++ [CallHook "render:routeDone" url r c]) (Returned (RetHtml (html r)))
| RunNotModified (pre : list Event) (url : string) (r : RenderResult) (c : Context) :
    Forall preparing pre ->
    Run (pre ++ [End None; CallHook "render:routeDone" url r c]) (Returned RetUndefined)
| RunSent (pre : list Event) (url : string) (r : RenderResult) (c : Context) :
    Forall preparing pre ->
    Run (pre ++ sendEvents url r c) (Returned (RetHtml (html r)))
| RunRejected (err : JsError) :
    Run [] (Threw err).

(** The warning of line 92, issued in dev mode. *)
Definition shouldPushWarning (o : Options) : list Event :=
  if dev o
  then [ConsolaWarn "http2.shouldPush is deprecated. Use http2.pushAssets function"]
  else [].

(** ** Concrete collaborators and inputs *)

Definition ex_getContext (_ : Request) : Context :=
  {| ctx_redirected := false; ctx_nuxt := None |}.

Definition ex_decodeURI (url : string) : Outcome string := Returned url.

Definition ex_generateETag (html : string) (_ : EtagOptions) : string :=
  ("W/" ++ html)%string.

Definition ex_fresh (headers : list (string * string)) (etag : string) : bool :=
  match obj_get "if-none-match" headers with
  | Some v => String.eqb v etag
  | None => false
  end.

Definition ex_nuxt : Nuxt :=
  {| callHook := fun _ _ result context =>
       {| hook_outcome := Returned tt; hook_result := result; hook_context := context |} |}.

Definition ex_failing_nuxt : Nuxt :=
  {| callHook := fun _ _ result context =>
       {| hook_outcome := Threw (Thrown "hook failed");
          hook_result := result; hook_context := context |} |}.

Definition ex_files : list PreloadEntry :=
  [ {| file := "app.js"; asType := "script"; fileWithoutQuery := "app.js"; modern := false |};
    {| file := "app.css"; asType := "style"; fileWithoutQuery := "app.css"; modern := false |};
    {| file := "a.woff2"; asType := "font"; fileWithoutQuery := "a.woff2"; modern := false |};
    {| file := "m.js?v=1"; asType := "script"; fileWithoutQuery := "m.js"; modern := true |} ].

Definition ex_result (err : option NuxtError) (redirect : bool) : RenderResult :=
  {| html := "<html></html>";
     cspScriptSrcHashSet := ["'sha256-abc'"];
     error := err;
     redirected := redirect;
     getPreloadFiles := fun _ => Returned ex_files |}.

Definition ex_context (err : option NuxtError) (redirect : bool) : Context :=
  {| ctx_redirected := redirect; ctx_nuxt := Some {| nuxt_error := err |} |}.

Definition ex_renderRoute (result : RenderResult) (after : Context)
  : string -> Context -> Rendered :=
  fun _ _ => {| render_outcome := Returned result; render_context := after |}.

Definition ex_failing_renderRoute (after : Context) : string -> Context -> Rendered :=
  fun _ _ => {| render_outcome := Threw (Thrown "render failed"); render_context := after |}.

Definition ex_options (e : option EtagOptions) (pushOn : bool) (c : option CspOptions)
  : Options :=
  {| render :=
       {| etag := e;
          http2 := {| push := pushOn; shouldPush := None; pushAssets := None |};
          csp := c |};
     dev := false;
     build_crossorigin := None |}.

Definition ex_params (o : Options) (render : string -> Context -> Rendered) : Params :=
  {| options := o;
     nuxt := ex_nuxt;
     renderRoute := render;
     resources := {| clientManifest := Some {| publicPath := "/_nuxt/" |} |} |}.

Definition ex_request (conditional : list (string * string)) : Request :=
  {| req_url := "/about"; req_headers := conditional |}.

Definition ex_middleware : Params -> Request -> Outcome ReturnValue * State :=
  nuxtMiddleware ex_getContext ex_decodeURI ex_generateETag ex_fresh.

Definition ex_csp_flat : CspOptions :=
  {| allowedSources := Some ["https://cdn.example.com"]; policies := None; reportOnly := false |}.

Definition ex_csp_policies : CspOptions :=
  {| allowedSources := None;
     policies := Some [("default-src", PArray ["'none'"])];
     reportOnly := false |}.

(** A [shouldPush] that approves fonts only, one that approves nothing, and
    one that throws on style sheets. *)
Definition ex_fontsOnly (_ asType : string) : Outcome bool :=
  Returned (String.eqb asType "font").

Definition ex_rejectAll (_ _ : string) : Outcome bool := Returned false.

Definition ex_throwsOnStyle (_ asType : string) : Outcome bool :=
  if String.eqb asType "style" then Threw (Thrown "shouldPush failed") else Returned true.

(** A [pushAssets] that pushes every preload file under its bare path. *)
Definition ex_pushAssets (path : string) (files : list PreloadEntry)
  : Outcome (list string) :=
  Returned (map (fun entry => ("<" ++ path ++ fileWithoutQuery entry ++ ">")%string) files).

Definition ex_options_http2 (h : Http2Options) (c : option CspOptions) (isDev : bool)
  : Options :=
  {| render := {| etag := None; http2 := h; csp := c |};
     dev := isDev;
     build_crossorigin := Some "anonymous" |}.

(** * Properties *)

(** ** The handler on concrete requests *)

(** A page with ETag, push and CSP enabled. *)
Example normal_response :
  let p := ex_params (ex_options (Some {| weak := true |}) true (Some ex_csp_flat))
             (ex_renderRoute (ex_result None false) (ex_context None false)) in
  let out := ex_middleware p (ex_request []) in
  fst out = Returned (RetHtml "<html></html>")
  /\ statusCodes (events (snd out)) = [200]
  /\ headersSet (events (snd out))
     = ["ETag"; "Link"; "Content-Security-Policy";
        "Content-Type"; "Accept-Ranges"; "Content-Length"]
  /\ headerValue "Content-Length" (events (snd out)) = Some (HNumber 13)
  /\ bodiesWritten (events (snd out)) = [Some "<html></html>"].
Proof. simpl. repeat split; reflexivity. Qed.

(** The [render:route] handlers reject: the error goes to [next]. *)
Example hook_rejection_forwarded :
  let p := {| options := ex_options None false None;
              nuxt := ex_failing_nuxt;
              renderRoute := ex_renderRoute (ex_result None false) (ex_context None false);
              resources := {| clientManifest := None |} |} in
  let out := ex_middleware p (ex_request []) in
  fst out = Returned RetUndefined
  /\ forwarded (events (snd out)) = [Thrown "hook failed"]
  /\ bodiesWritten (events (snd out)) = [].
Proof. simpl. repeat split; reflexivity. Qed.

(** Push is enabled but there is no client manifest: the destructuring of
    line 51 throws and the error goes to [next]. *)
Example missing_manifest_forwarded :
  let p := {| options := ex_options None true None;
              nuxt := ex_nuxt;
              renderRoute := ex_renderRoute (ex_result None false) (ex_context None false);
              resources := {| clientManifest := None |} |} in
  let out := ex_middleware p (ex_request []) in
  fst out = Returned RetUndefined
  /\ forwarded (events (snd out))
     = [TypeError "Cannot destructure property 'publicPath' of undefined"].
Proof. simpl. repeat split; reflexivity. Qed.

(** A policy value that is not an array makes [getCspString] throw, after
    the hash set was updated. *)
Example policy_value_not_an_array :
  getCspString ["'sha256-abc'"] None (Some [("img-src", PString "'self'")]) false
  = (Threw (TypeError "v.join is not a function"), ["'sha256-abc'"; "'self'"]).
Proof. reflexivity. Qed.

(** In dev mode the base string carries ['unsafe-eval']; the policy object
    form does not. *)
Example dev_mode_values :
  fst (getCspString ["'sha256-abc'"] None None true)
  = Returned "script-src 'self' 'unsafe-eval' 'sha256-abc'"
  /\ fst (getCspString ["'sha256-abc'"] None (Some []) true)
     = Returned "script-src 'sha256-abc' 'self'".
Proof. split; reflexivity. Qed.

(** ** Running the monad *)

Lemma bind_inv_returned {A B : Type} (m : M A) (k : A -> M B) (s s' : State) (b : B) :
  bind m k s = (Returned b, s') ->
  exists a s1, m s = (Returned a, s1) /\ k a s1 = (Returned b, s').
Proof.
  unfold bind. destruct (m s) as [[a | e] s1]; intros H.
  - exists a, s1. split; [reflexivity | exact H].
  - discriminate H.
Qed.

Lemma state_eta (s : State) : {| events := events s; context := context s |} = s.
Proof. destruct s; reflexivity. Qed.

Lemma framed_ret {A : Type} (P : Event -> Prop) (a : A) : framed P (ret a).
Proof.
  intros s. exists []. simpl. rewrite app_nil_r, state_eta. split; [reflexivity | constructor].
Qed.

Lemma framed_throw {A : Type} (P : Event -> Prop) (e : JsError) : framed P (@throw A e).
Proof.
  intros s. exists []. simpl. rewrite app_nil_r, state_eta. split; [reflexivity | constructor].
Qed.

Lemma framed_lift {A : Type} (P : Event -> Prop) (o : Outcome A) : framed P (lift o).
Proof.
  intros s. exists []. simpl. rewrite app_nil_r, state_eta. split; [reflexivity | constructor].
Qed.

Lemma framed_get_context (P : Event -> Prop) : framed P get_context.
Proof.
  intros s. exists []. simpl. rewrite app_nil_r, state_eta. split; [reflexivity | constructor].
Qed.

Lemma framed_emit (P : Event -> Prop) (e : Event) : P e -> framed P (emit e).
Proof.
  intros He s. exists [e]. simpl. split; [reflexivity | repeat constructor; exact He].
Qed.

Lemma framed_bind {A B : Type} (P : Event -> Prop) (m : M A) (k : A -> M B) :
  framed P m -> (forall a, framed P (k a)) -> framed P (bind m k).
Proof.
  intros Hm Hk s. unfold bind.
  destruct (Hm s) as [evs [Hs Hevs]].
  destruct (m s) as [[a | e] s1]; simpl in Hs; subst s1.
  - destruct (Hk a {| events := events s ++ evs; context := context s |}) as [evs' [Hs' Hevs']].
    exists (evs ++ evs'). rewrite Hs'. simpl. rewrite app_assoc.
    split; [reflexivity | apply Forall_app; split; assumption].
  - exists evs. simpl. split; [reflexivity | assumption].
Qed.

Lemma framed_forEach {A S : Type} (P : Event -> Prop) (callback : S -> A -> M S)
    (l : list A) :
  (forall acc x, framed P (callback acc x)) -> forall acc, framed P (forEach callback l acc).
Proof.
  intros Hcb. induction l as [| x l IH]; intros acc; simpl.
  - apply framed_ret.
  - apply framed_bind; [apply Hcb | intros acc'; apply IH].
Qed.

Lemma framed_weaken {A : Type} (P Q : Event -> Prop) (m : M A) :
  (forall e, P e -> Q e) -> framed P m -> framed Q m.
Proof.
  intros HPQ Hm s. destruct (Hm s) as [evs [Hs Hevs]].
  exists evs. split; [exact Hs |]. eapply Forall_impl; [exact HPQ | exact Hevs].
Qed.

Ltac framed_auto :=
  repeat
    match goal with
    | |- framed _ (ret _) => apply framed_ret
    | |- framed _ (throw _) => apply framed_throw
    | |- framed _ (lift _) => apply framed_lift
    | |- framed _ get_context => apply framed_get_context
    | |- framed _ (emit _) => apply framed_emit
    | |- framed _ (bind _ _) => apply framed_bind; [| intros ?]
    | |- framed _ (forEach _ _ _) => apply framed_forEach; intros ? ?
    | |- framed _ (if ?b then _ else _) => destruct b
    | |- framed _ (match ?x with _ => _ end) => destruct x
    | |- framed _ (let (_, _) := ?x in _) => destruct x
    end.

(** ** Reading a header back *)

Lemma headerValue_from (name : string) (evs : list Event) :
  forall acc,
    fold_left (headerStep name) evs acc
    = match headerValue name evs with
      | Some v => Some v
      | None => acc
      end.
Proof.
  unfold headerValue.
  induction evs as [| e evs IH]; intros acc; simpl.
  - reflexivity.
  - rewrite (IH (headerStep name acc e)), (IH (headerStep name None e)).
    destruct (fold_left (headerStep name) evs None); [reflexivity |].
    destruct e; try reflexivity.
    simpl. destruct (String.eqb name name0); reflexivity.
Qed.

Lemma headerValue_app (name : string) (evs evs' : list Event) :
  headerValue name (evs ++ evs')
  = match headerValue name evs' with
    | Some v => Some v
    | None => headerValue name evs
    end.
Proof.
  unfold headerValue at 1. rewrite fold_left_app. apply headerValue_from.
Qed.

(** ** Blocks that never assign the status code *)

Lemma statusCodes_app (evs evs' : list Event) :
  statusCodes (evs ++ evs') = statusCodes evs ++ statusCodes evs'.
Proof. unfold statusCodes. apply flat_map_app. Qed.

Lemma statusCodes_quiet (evs : list Event) :
  Forall isQuiet evs -> statusCodes evs = [].
Proof.
  induction 1 as [| e evs He _ IH]; [reflexivity |].
  destruct e; simpl in He |- *; (contradiction || exact IH).
Qed.

Lemma forwarded_notCaught (evs : list Event) :
  Forall notCaught evs -> forwarded evs = [] /\ logged evs = [].
Proof.
  induction 1 as [| e evs He _ IH]; [split; reflexivity |].
  destruct e; simpl in He |- *; (contradiction || exact IH).
Qed.

Lemma framed_defaultPushAssets (files : list PreloadEntry)
    (predicate : option (string -> string -> Outcome bool)) (path : string) (o : Options) :
  framed isQuiet (defaultPushAssets files predicate path o).
Proof. unfold defaultPushAssets, pushLink. framed_auto; exact I. Qed.

Lemma framed_pushHeaders (p : Params) (result : RenderResult) :
  framed isQuiet (pushHeaders p result).
Proof.
  unfold pushHeaders. framed_auto; try apply framed_defaultPushAssets; exact I.
Qed.

Lemma framed_cspHeaders (p : Params) (result : RenderResult) :
  framed isQuiet (cspHeaders p result).
Proof. unfold cspHeaders. framed_auto; exact I. Qed.

Lemma framed_sendResponse (url : string) (result : RenderResult) :
  framed isQuiet (sendResponse url result).
Proof. unfold sendResponse, routeDone. framed_auto; exact I. Qed.

Lemma framed_afterETag (p : Params) (url : string) (result : RenderResult) :
  framed isQuiet (afterETag p url result).
Proof.
  unfold afterETag. framed_auto;
    [apply framed_pushHeaders | apply framed_cspHeaders | apply framed_sendResponse].
Qed.

Lemma framed_respond (generateETag : string -> EtagOptions -> string)
    (fresh : list (string * string) -> string -> bool)
    (p : Params) (req : Request) (url : string) (result : RenderResult) :
  framed notCaught (respond generateETag fresh p req url result).
Proof.
  assert (Hafter : framed notCaught (afterETag p url result)).
  { apply (framed_weaken isQuiet); [| apply framed_afterETag].
    intros [] H; simpl in H |- *; exact H || exact I. }
  unfold respond, setErrorStatus, routeDone. framed_auto; exact I || exact Hafter.
Qed.

(** ** Sets, objects and strings *)

Lemma set_has_In (x : string) (s : JsSet) : set_has x s = true <-> In x s.
Proof.
  unfold set_has. rewrite existsb_exists. split.
  - intros [y [Hy Heq]]. apply String.eqb_eq in Heq. subst y. exact Hy.
  - intros Hx. exists x. split; [exact Hx | apply String.eqb_refl].
Qed.

Lemma set_add_In (x y : string) (s : JsSet) : In x (set_add y s) <-> In x s \/ x = y.
Proof.
  unfold set_add. destruct (set_has y s) eqn:Hhas.
  - apply set_has_In in Hhas. split; [intros H; left; exact H |].
    intros [H | H]; [exact H | subst x; exact Hhas].
  - rewrite in_app_iff. simpl. split.
    + intros [H | [H | []]]; [left; exact H | right; symmetry; exact H].
    + intros [H | H]; [left; exact H | right; left; symmetry; exact H].
Qed.

Lemma set_add_all_In (x : string) (src : JsSet) :
  forall target, In x (set_add_all src target) <-> In x target \/ In x src.
Proof.
  unfold set_add_all. induction src as [| y src IH]; intros target; simpl.
  - tauto.
  - rewrite IH, set_add_In. split.
    + intros [[H | H] | H]; auto.
    + intros [H | [H | H]]; auto.
Qed.

Lemma set_of_array_In (x : string) (l : list string) : In x (set_of_array l) <-> In x l.
Proof.
  unfold set_of_array. rewrite (set_add_all_In x l []). simpl. tauto.
Qed.

Lemma obj_get_set {V : Type} (k k' : string) (v : V) (o : JsObject V) :
  obj_get k (obj_set k' v o) = if String.eqb k k' then Some v else obj_get k o.
Proof.
  induction o as [| [k0 v0] o IH]; simpl.
  - reflexivity.
  - destruct (String.eqb_spec k' k0) as [Heq | Hneq]; simpl.
    + subst k0. destruct (String.eqb k k'); reflexivity.
    + rewrite IH. destruct (String.eqb_spec k k0) as [Heq0 | Hneq0]; [| reflexivity].
      subst k0. destruct (String.eqb_spec k k') as [Heq1 | _]; [| reflexivity].
      subst k'. contradiction.
Qed.

(** A pattern without a space matches at the start of [a ++ " " ++ b] only
    if it matches at the start of [a]. *)
Lemma prefix_space (b : string) :
  forall pattern a,
    spaceFree pattern = true ->
    String.prefix pattern (a ++ String " " b) = String.prefix pattern a.
Proof.
  induction pattern as [| c pattern IH]; intros a Hfree; [destruct a; reflexivity |].
  simpl in Hfree. apply andb_prop in Hfree. destruct Hfree as [Hc Hfree].
  destruct a as [| x a]; simpl.
  - destruct (ascii_dec c " ") as [Heq | _]; [| reflexivity].
    subst c. discriminate Hc.
  - destruct (ascii_dec c x); [apply IH; exact Hfree | reflexivity].
Qed.

Lemma includes_space (pattern b : string) :
  spaceFree pattern = true ->
  forall a, includes pattern (a ++ String " " b) = includes pattern a || includes pattern b.
Proof.
  intros Hfree. induction a as [| x a IH].
  - change ("" ++ String " " b)%string with (String " " b).
    change (includes pattern (String " " b))
      with (if String.prefix pattern ("" ++ String " " b) then true else includes pattern b).
    rewrite (prefix_space b pattern "" Hfree).
    simpl. destruct pattern; reflexivity.
  - change (String x a ++ String " " b)%string with (String x (a ++ String " " b)).
    change (includes pattern (String x (a ++ String " " b)))
      with (if String.prefix pattern (String x a ++ String " " b)
            then true else includes pattern (a ++ String " " b)).
    rewrite (prefix_space b pattern (String x a) Hfree), IH.
    change (includes pattern (String x a))
      with (if String.prefix pattern (String x a) then true else includes pattern a).
    destruct (String.prefix pattern (String x a)); reflexivity.
Qed.

Lemma includes_join (pattern : string) (l : list string) :
  spaceFree pattern = true ->
  includes pattern "" = false ->
  includes pattern (join " " l) = existsb (includes pattern) l.
Proof.
  intros Hfree Hempty. induction l as [| x l IH]; [exact Hempty |].
  destruct l as [| y l].
  - simpl. rewrite orb_false_r. reflexivity.
  - change (join " " (x :: y :: l)) with (x ++ String " " (join " " (y :: l)))%string.
    rewrite (includes_space pattern _ Hfree), IH. reflexivity.
Qed.

(** ** The CSP header value *)

(** C3. With [policies] the object [{ 'default-src': ["'none'"] }],
    [allowedSources] not an array and the hash set [{'sha256-abc'}], the CSP
    value is the two directives [default-src 'none'] and
    [script-src 'sha256-abc' 'self'] joined with [; ], whatever [dev] is, and
    this is the value the handler sets the CSP header to. *)
Theorem csp_policies_example (p : Params) (result : RenderResult) (c : CspOptions)
    (s : State) :
  csp (render (options p)) = Some c ->
  allowedSources c = None ->
  policies c = Some [("default-src", PArray ["'none'"])] ->
  cspScriptSrcHashSet result = ["'sha256-abc'"] ->
  fst (getCspString (cspScriptSrcHashSet result) (allowedSources c) (policies c)
         (dev (options p)))
  = Returned (join "; " ["default-src 'none'";
                         ("script-src " ++ join " " ["'sha256-abc'"; "'self'"])%string])
  /\ join "; " ["default-src 'none'";
                ("script-src " ++ join " " ["'sha256-abc'"; "'self'"])%string]
     = "default-src 'none'; script-src 'sha256-abc' 'self'"
  /\ fst (cspHeaders p result s) = Returned (withHashSet result ["'sha256-abc'"; "'self'"])
  /\ events (snd (cspHeaders p result s))
     = events s ++ [SetHeader (cspHeader c)
                      (HString "default-src 'none'; script-src 'sha256-abc' 'self'")].
Proof.
  intros Hcsp Hallowed Hpolicies Hhashes.
  unfold cspHeaders. rewrite Hcsp, Hallowed, Hpolicies, Hhashes.
  repeat split; reflexivity.
Qed.

(** C6. With [allowedSources] the array [["https://cdn.example.com"]] and
    [dev] false, the CSP value, to which the handler sets the CSP header, is
    [script-src 'self' ], the hashes of the hash set joined with spaces, and
    [ https://cdn.example.com]; no ['unsafe-eval'] occurs in it, the hashes
    containing none. *)
Theorem csp_allowed_sources_example (p : Params) (result : RenderResult) (c : CspOptions)
    (s : State) :
  csp (render (options p)) = Some c ->
  allowedSources c = Some ["https://cdn.example.com"] ->
  dev (options p) = false ->
  forallb (fun hash => negb (includes "'unsafe-eval'" hash)) (cspScriptSrcHashSet result)
  = true ->
  let value := ("script-src 'self' " ++ join " " (cspScriptSrcHashSet result)
                  ++ " https://cdn.example.com")%string in
  fst (getCspString (cspScriptSrcHashSet result) (allowedSources c) (policies c)
         (dev (options p))) = Returned value
  /\ events (snd (cspHeaders p result s))
     = events s ++ [SetHeader (cspHeader c) (HString value)]
  /\ includes "'unsafe-eval'" value = false.
Proof.
  intros Hcsp Hallowed Hdev Hhashes value.
  split; [| split].
  - rewrite Hallowed, Hdev. reflexivity.
  - unfold cspHeaders. rewrite Hcsp, Hallowed, Hdev. reflexivity.
  - subst value. set (hashes := cspScriptSrcHashSet result) in *.
    change ("script-src 'self' " ++ join " " hashes ++ " https://cdn.example.com")%string
      with ("script-src"
              ++ String " " ("'self'"
              ++ String " " (join " " hashes
              ++ String " " "https://cdn.example.com")))%string.
    rewrite !includes_space by reflexivity.
    rewrite includes_join by reflexivity.
    replace (existsb (includes "'unsafe-eval'") hashes) with false; [reflexivity |].
    symmetry. clearbody hashes.
    induction hashes as [| hash hashes IH]; [reflexivity |].
    simpl in Hhashes |- *. apply andb_prop in Hhashes. destruct Hhashes as [Hhash Hrest].
    apply negb_true_iff in Hhash. rewrite Hhash. apply IH. exact Hrest.
Qed.

(** C9 (amended). [transformPolicyObject] updates the hash set it is given:
    afterwards the set holds what it held, ['self'] and, when
    [policies['script-src']] is an array, the entries of that array, and
    nothing else; the object it returns has this set as [script-src] and
    every other directive of [policies] unchanged. [getCspString] leaves the
    set like this when [allowedSources] is not an array and [policies] is a
    plain object, and so does the handler with the set of the render result,
    which it then hands to [render:routeDone]. *)
Theorem policy_object_updates_hash_set (pol : Policies) (hashes : JsSet) :
  let policyObject := fst (transformPolicyObject pol hashes) in
  let hashes' := snd (transformPolicyObject pol hashes) in
  (forall x,
     In x hashes' <->
     In x hashes \/ x = "'self'"
     \/ exists sources, obj_get "script-src" pol = Some (PArray sources) /\ In x sources)
  /\ obj_get "script-src" policyObject = Some (PArray hashes')
  /\ (forall directive,
        directive <> "script-src" -> obj_get directive policyObject = obj_get directive pol)
  /\ (forall isDev, snd (getCspString hashes None (Some pol) isDev) = hashes')
  /\ (forall p result c s r s',
        csp (render (options p)) = Some c ->
        allowedSources c = None ->
        policies c = Some pol ->
        cspScriptSrcHashSet result = hashes ->
        cspHeaders p result s = (Returned r, s') ->
        r = withHashSet result hashes').
Proof.
  intros policyObject hashes'. subst policyObject hashes'.
  unfold transformPolicyObject, userHasDefinedScriptSrc. simpl.
  split; [| split; [| split; [| split]]].
  - intros x.
    destruct (obj_get "script-src" pol) as [[sources | str] |].
    + rewrite set_add_all_In, set_add_In, set_of_array_In. split.
      * intros [[H | H] | H]; auto. right; right. exists sources. split; [reflexivity | exact H].
      * intros [H | [H | [sources' [Heq H]]]]; auto.
        injection Heq as Heq. subst sources'. right; exact H.
    + rewrite set_add_In. split.
      * intros [H | H]; auto.
      * intros [H | [H | [sources' [Heq H]]]]; auto. discriminate Heq.
    + rewrite set_add_In. split.
      * intros [H | H]; auto.
      * intros [H | [H | [sources' [Heq H]]]]; auto. discriminate Heq.
  - rewrite obj_get_set, String.eqb_refl. reflexivity.
  - intros directive Hneq. rewrite obj_get_set.
    destruct (String.eqb_spec directive "script-src") as [Heq | _]; [contradiction | reflexivity].
  - intros isDev. unfold getCspString, transformPolicyObject, userHasDefinedScriptSrc.
    reflexivity.
  - intros p result c s r s' Hcsp Hallowed Hpolicies Hhashes Hrun.
    unfold cspHeaders in Hrun. rewrite Hcsp, Hallowed, Hpolicies, Hhashes in Hrun.
    unfold getCspString, transformPolicyObject, userHasDefinedScriptSrc in Hrun.
    simpl in Hrun.
    destruct (map_outcome directiveString _) as [directives | err];
      unfold bind, lift in Hrun; simpl in Hrun.
    + injection Hrun as Hr _. symmetry. exact Hr.
    + discriminate Hrun.
Qed.

(** ** The handler once the route is rendered *)

Section Rendered.

Variable getContext : Request -> Context.
Variable decodeURI : string -> Outcome string.
Variable generateETag : string -> EtagOptions -> string.
Variable fresh : list (string * string) -> string -> bool.

Local Notation "'middleware'" := (nuxtMiddleware getContext decodeURI generateETag fresh).
Local Notation "'responding'" := (respond generateETag fresh).

Variables (p : Params) (req : Request) (url : string).
Variables (before result : RenderResult) (c0 ctx : Context).

(** The URL decodes, the renderer returns [before] and leaves the context
    as [c0], and the [render:route] handlers resolve, leaving [result] and
    [ctx]. *)
Hypothesis Hurl : decodeURI (req_url req) = Returned url.
Hypothesis Hrender :
  renderRoute p url (getContext req)
  = {| render_outcome := Returned before; render_context := c0 |}.
Hypothesis Hhook :
  callHook (nuxt p) "render:route" url before c0
  = {| hook_outcome := Returned tt; hook_result := result; hook_context := ctx |}.

Lemma middleware_rendered :
  middleware p req
  = try_catch (responding p req url result) catchBlock (rendered_state url before c0 ctx).
Proof.
  unfold nuxtMiddleware. rewrite Hurl.
  unfold try_catch, tryBlock, awaitRenderRoute, awaitRenderRouteHook, bind,
    emit, get_context, put_context, lift; simpl.
  rewrite Hrender; simpl. rewrite Hhook; simpl. reflexivity.
Qed.

Lemma respond_redirected (s : State) :
  redirected result = true ->
  responding p req url result s
  = (Returned (RetHtml (html result)),
     {| events := events s ++ [CallHook "render:routeDone" url result (context s)];
        context := context s |}).
Proof.
  intros Hred. unfold respond. rewrite Hred. reflexivity.
Qed.

(** On a redirect the handler dispatches [render:routeDone] and returns. *)
Lemma middleware_redirected :
  redirected result = true ->
  middleware p req
  = (Returned (RetHtml (html result)),
     {| events := [SetStatus 200; CallHook "render:route" url before c0;
                   CallHook "render:routeDone" url result ctx];
        context := ctx |}).
Proof.
  intros Hred. rewrite middleware_rendered. unfold try_catch.
  rewrite (respond_redirected _ Hred). reflexivity.
Qed.

(** C5. When the render result has [redirected] true, the handler returns
    [result.html], sets no header at all (so none of ETag, Link and the two
    CSP headers), assigns no status but the initial 200 even if
    [result.error] is present, and dispatches [render:routeDone] exactly
    once, with that result. *)
Theorem redirected_returns_html_only :
  redirected result = true ->
  fst (middleware p req) = Returned (RetHtml (html result))
  /\ headersSet (events (snd (middleware p req))) = []
  /\ statusCodes (events (snd (middleware p req))) = [200]
  /\ bodiesWritten (events (snd (middleware p req))) = []
  /\ hookCalls "render:routeDone" (events (snd (middleware p req))) = [result].
Proof.
  intros Hred. rewrite (middleware_redirected Hred). simpl. repeat split; reflexivity.
Qed.

Lemma respond_not_modified (s : State) (etagOptions : EtagOptions) :
  redirected result = false ->
  error result = None ->
  etag (render (options p)) = Some etagOptions ->
  fresh (req_headers req) (generateETag (html result) etagOptions) = true ->
  responding p req url result s
  = (Returned RetUndefined,
     {| events := events s ++ [SetStatus 304; End None;
                               CallHook "render:routeDone" url result (context s)];
        context := context s |}).
Proof.
  intros Hred Herr Hetag Hfresh. unfold respond, setErrorStatus.
  rewrite Hred, Herr, Hetag, Hfresh.
  unfold bind, emit, routeDone, get_context, ret; simpl.
  repeat rewrite <- app_assoc. reflexivity.
Qed.

(** C4 (amended). When the render result is not redirected and carries no
    error, [etag] is enabled and the request is fresh for the tag computed
    from the HTML, the handler sets status 304, ends the response with no
    body, sets no header (so no Link and no CSP header), dispatches
    [render:routeDone] once and returns nothing; these are its only
    effects after the [render:route] hook. *)
Theorem fresh_etag_not_modified (etagOptions : EtagOptions) :
  redirected result = false ->
  error result = None ->
  etag (render (options p)) = Some etagOptions ->
  fresh (req_headers req) (generateETag (html result) etagOptions) = true ->
  middleware p req
  = (Returned RetUndefined,
     {| events := [SetStatus 200; CallHook "render:route" url before c0;
                   SetStatus 304; End None;
                   CallHook "render:routeDone" url result ctx];
        context := ctx |})
  /\ statusCodes (events (snd (middleware p req))) = [200; 304]
  /\ bodiesWritten (events (snd (middleware p req))) = [None]
  /\ headersSet (events (snd (middleware p req))) = []
  /\ hookCalls "render:routeDone" (events (snd (middleware p req))) = [result].
Proof.
  intros Hred Herr Hetag Hfresh.
  assert (Hrun : middleware p req
                 = (Returned RetUndefined,
                    {| events := [SetStatus 200; CallHook "render:route" url before c0;
                                  SetStatus 304; End None;
                                  CallHook "render:routeDone" url result ctx];
                       context := ctx |})).
  { rewrite middleware_rendered. unfold try_catch.
    rewrite (respond_not_modified _ _ Hred Herr Hetag Hfresh). reflexivity. }
  rewrite Hrun. simpl. repeat split; reflexivity.
Qed.

Lemma sendResponse_run (r : RenderResult) (s : State) :
  sendResponse url r s
  = (Returned (RetHtml (html r)),
     {| events := events s ++ sendEvents url r (context s); context := context s |}).
Proof.
  unfold sendResponse, routeDone, bind, emit, get_context, ret, sendEvents; simpl.
  repeat rewrite <- app_assoc. reflexivity.
Qed.

Lemma cspHeaders_run (s : State) :
  cspHeaders p result s
  = match csp (render (options p)) with
    | None => (Returned result, s)
    | Some c =>
        match getCspString (cspScriptSrcHashSet result) (allowedSources c) (policies c)
                (dev (options p)) with
        | (Returned v, hashSet') =>
            (Returned (withHashSet result hashSet'),
             {| events := events s ++ [SetHeader (cspHeader c) (HString v)];
                context := context s |})
        | (Threw err, _) => (Threw err, s)
        end
    end.
Proof.
  unfold cspHeaders. destruct (csp (render (options p))) as [c |]; [| reflexivity].
  destruct (getCspString _ _ _ _) as [[v | err] hashSet']; reflexivity.
Qed.

Lemma catchBlock_run (err : JsError) (s : State) :
  catchBlock err s
  = if ctx_redirected (context s)
    then (Returned (RetError err),
          {| events := events s ++ [ConsolaError err]; context := context s |})
    else (Returned RetUndefined,
          {| events := events s ++ [Next err]; context := context s |}).
Proof.
  unfold catchBlock, bind, get_context, emit, ret; simpl.
  destruct (ctx_redirected (context s)); reflexivity.
Qed.

(** With an error in the render result the handler goes from the status
    assignment straight to the CSP block. *)
Lemma respond_error (s : State) (e e' : NuxtError) (nuxtState : NuxtState) :
  redirected result = false ->
  error result = Some e ->
  ctx_nuxt (context s) = Some nuxtState ->
  nuxt_error nuxtState = Some e' ->
  responding p req url result s
  = (r <- cspHeaders p result ;; sendResponse url r)
      {| events := events s ++ [SetStatus (number_or (statusCode e') 500)];
         context := context s |}.
Proof.
  intros Hred Herr Hnuxt Hnerr.
  unfold respond, setErrorStatus, afterETag, pushHeaders.
  rewrite Hred, Herr.
  unfold bind at 1 2. unfold get_context at 1. rewrite Hnuxt, Hnerr.
  reflexivity.
Qed.

(** The whole run when the render result carries an error. *)
Lemma middleware_error (e e' : NuxtError) (nuxtState : NuxtState) :
  redirected result = false ->
  error result = Some e ->
  ctx_nuxt ctx = Some nuxtState ->
  nuxt_error nuxtState = Some e' ->
  let status := SetStatus (number_or (statusCode e') 500) in
  let start := [SetStatus 200; CallHook "render:route" url before c0; status] in
  middleware p req
  = match csp (render (options p)) with
    | None =>
        (Returned (RetHtml (html result)),
         {| events := start ++ sendEvents url result ctx; context := ctx |})
    | Some c =>
        match getCspString (cspScriptSrcHashSet result) (allowedSources c) (policies c)
                (dev (options p)) with
        | (Returned v, hashSet') =>
            (Returned (RetHtml (html result)),
             {| events := start ++ SetHeader (cspHeader c) (HString v)
                            :: sendEvents url (withHashSet result hashSet') ctx;
                context := ctx |})
        | (Threw err, _) =>
            if ctx_redirected ctx
            then (Returned (RetError err),
                  {| events := start ++ [ConsolaError err]; context := ctx |})
            else (Returned RetUndefined,
                  {| events := start ++ [Next err]; context := ctx |})
        end
    end.
Proof.
  intros Hred Herr Hnuxt Hnerr status start.
  rewrite middleware_rendered. unfold try_catch.
  rewrite (respond_error (rendered_state url before c0 ctx) _ _ _ Hred Herr Hnuxt Hnerr).
  unfold bind. rewrite cspHeaders_run.
  destruct (csp (render (options p))) as [c |].
  - destruct (getCspString _ _ _ _) as [[v | err] hashSet'].
    + rewrite sendResponse_run. simpl. reflexivity.
    + rewrite catchBlock_run. simpl. reflexivity.
  - rewrite sendResponse_run. simpl. reflexivity.
Qed.

(** The whole run when the render result carries an error and line 29
    finds no error object in the context. *)
Lemma middleware_error_unread (e : NuxtError) :
  redirected result = false ->
  error result = Some e ->
  (ctx_nuxt ctx = None \/ ctx_nuxt ctx = Some {| nuxt_error := None |}) ->
  exists message,
    middleware p req
    = if ctx_redirected ctx
      then (Returned (RetError (TypeError message)),
            {| events := [SetStatus 200; CallHook "render:route" url before c0;
                          ConsolaError (TypeError message)];
               context := ctx |})
      else (Returned RetUndefined,
            {| events := [SetStatus 200; CallHook "render:route" url before c0;
                          Next (TypeError message)];
               context := ctx |}).
Proof.
  intros Hred Herr Hmissing.
  rewrite middleware_rendered.
  unfold try_catch, respond, setErrorStatus. rewrite Hred, Herr.
  unfold bind at 1 2. unfold get_context at 1. unfold rendered_state. cbn [context].
  destruct Hmissing as [Hnuxt | Hnuxt]; rewrite Hnuxt; cbn [nuxt_error];
    unfold throw; rewrite catchBlock_run; cbn [context events];
    eexists; destruct (ctx_redirected ctx); reflexivity.
Qed.

(** C1 (amended). When the render result carries an error and is not
    redirected, the handler sets neither ETag nor Link, whatever the context
    and the options. The CSP block is not suppressed: when
    [context.nuxt.error] is an object, the header named by [reportOnly] is
    set to the value of [getCspString] if [csp] is configured and
    [getCspString] returns a value, and no CSP header is set if [csp] is not
    configured; in both cases Content-Type, Accept-Ranges and Content-Length
    are set, and the body is written normally and the HTML returned when the
    status read from the error object is one that [res.end] accepts. *)
Theorem error_result_headers (e : NuxtError) :
  redirected result = false ->
  error result = Some e ->
  (~ In "ETag" (headersSet (events (snd (middleware p req))))
   /\ ~ In "Link" (headersSet (events (snd (middleware p req)))))
  /\ (forall nuxtState e',
        ctx_nuxt ctx = Some nuxtState ->
        nuxt_error nuxtState = Some e' ->
        (csp (render (options p)) = None ->
         headersSet (events (snd (middleware p req)))
         = ["Content-Type"; "Accept-Ranges"; "Content-Length"]
         /\ (statusAccepted (number_or (statusCode e') 500) = true ->
             bodiesWritten (events (snd (middleware p req))) = [Some (html result)]
             /\ fst (middleware p req) = Returned (RetHtml (html result))))
        /\ (forall c v hashSet',
              csp (render (options p)) = Some c ->
              getCspString (cspScriptSrcHashSet result) (allowedSources c) (policies c)
                (dev (options p)) = (Returned v, hashSet') ->
              headersSet (events (snd (middleware p req)))
              = [cspHeader c; "Content-Type"; "Accept-Ranges"; "Content-Length"]
              /\ headerValue (cspHeader c) (events (snd (middleware p req)))
                 = Some (HString v)
              /\ (statusAccepted (number_or (statusCode e') 500) = true ->
                  bodiesWritten (events (snd (middleware p req))) = [Some (html result)]
                  /\ fst (middleware p req) = Returned (RetHtml (html result))))).
Proof.
  intros Hred Herr. split.
  - destruct (ctx_nuxt ctx) as [[[e' |]] |] eqn:Hnuxt.
    + rewrite (middleware_error e e' {| nuxt_error := Some e' |} Hred Herr Hnuxt eq_refl).
      destruct (csp (render (options p))) as [c |].
      * destruct (getCspString _ _ _ _) as [[v | err] hashSet'].
        -- unfold cspHeader. destruct (reportOnly c); simpl; split; intros H;
             repeat (destruct H as [H | H]; [discriminate H |]); exact H.
        -- destruct (ctx_redirected ctx); simpl; split; intros H; exact H.
      * simpl; split; intros H;
          repeat (destruct H as [H | H]; [discriminate H |]); exact H.
    + destruct (middleware_error_unread e Hred Herr (or_intror Hnuxt)) as [message Hrun].
      rewrite Hrun. destruct (ctx_redirected ctx); simpl; split; intros H; exact H.
    + destruct (middleware_error_unread e Hred Herr (or_introl Hnuxt)) as [message Hrun].
      rewrite Hrun. destruct (ctx_redirected ctx); simpl; split; intros H; exact H.
  - intros nuxtState e' Hnuxt Hnerr.
    rewrite (middleware_error e e' nuxtState Hred Herr Hnuxt Hnerr).
    split.
    + intros Hcsp. rewrite Hcsp. simpl. repeat split; reflexivity.
    + intros c v hashSet' Hcsp Hvalue. rewrite Hcsp, Hvalue.
      unfold cspHeader. destruct (reportOnly c); simpl; repeat split; reflexivity.
Qed.

(** Without redirect, error or fresh tag, the handler sets the ETag header
    when [etag] is enabled and goes on to the push block. *)
Lemma respond_normal (s : State) :
  redirected result = false ->
  error result = None ->
  notModified generateETag fresh p req result = false ->
  responding p req url result s
  = afterETag p url result
      {| events := events s ++ etagEvents generateETag p result; context := context s |}.
Proof.
  intros Hred Herr Hnm. unfold notModified in Hnm. rewrite Hred, Herr in Hnm. simpl in Hnm.
  unfold respond, setErrorStatus, etagEvents. rewrite Hred, Herr.
  unfold bind at 1. unfold ret at 1.
  destruct (etag (render (options p))) as [etagOptions |].
  - rewrite Hnm. reflexivity.
  - rewrite app_nil_r, state_eta. reflexivity.
Qed.

Lemma forEach_pushLink_default (path : string) (o : Options) (files : list PreloadEntry) :
  forall (links : list string) (s : State),
    forEach (pushLink None path o) files links s
    = (Returned (links ++ map (linkOf path o) (filter scriptOrStyle files)), s).
Proof.
  induction files as [| entry files IH]; intros links s; simpl.
  - rewrite app_nil_r. reflexivity.
  - unfold bind, scriptOrStyle.
    destruct (String.eqb (asType entry) "script"); simpl;
      [| destruct (String.eqb (asType entry) "style"); simpl ];
      rewrite IH; try rewrite <- app_assoc; reflexivity.
Qed.

Lemma defaultPushAssets_default (path : string) (o : Options) (files : list PreloadEntry)
    (s : State) :
  defaultPushAssets files None path o s
  = (Returned (map (linkOf path o) (filter scriptOrStyle files)), s).
Proof.
  unfold defaultPushAssets, bind. unfold ret at 1.
  rewrite forEach_pushLink_default. reflexivity.
Qed.

Lemma pushHeaders_default (files : list PreloadEntry) (manifest : ClientManifest) (s : State) :
  error result = None ->
  push (http2 (render (options p))) = true ->
  pushAssets (http2 (render (options p))) = None ->
  shouldPush (http2 (render (options p))) = None ->
  getPreloadFiles result tt = Returned files ->
  clientManifest (resources p) = Some manifest ->
  pushHeaders p result s
  = (Returned tt,
     {| events := events s
                  ++ linkEvents (map (linkOf (publicPath manifest) (options p))
                                   (filter scriptOrStyle files));
        context := context s |}).
Proof.
  intros Herr Hpush Hcustom Hshould Hfiles Hmanifest.
  unfold pushHeaders. rewrite Herr, Hpush, Hfiles, Hmanifest, Hcustom, Hshould.
  unfold bind, lift. rewrite defaultPushAssets_default.
  destruct (map _ _) as [| link links]; simpl.
  - rewrite app_nil_r, state_eta. reflexivity.
  - reflexivity.
Qed.

(** The whole run on the default push path. *)
Lemma middleware_pushed (files : list PreloadEntry) (manifest : ClientManifest) :
  redirected result = false ->
  error result = None ->
  notModified generateETag fresh p req result = false ->
  push (http2 (render (options p))) = true ->
  pushAssets (http2 (render (options p))) = None ->
  shouldPush (http2 (render (options p))) = None ->
  getPreloadFiles result tt = Returned files ->
  clientManifest (resources p) = Some manifest ->
  let links := map (linkOf (publicPath manifest) (options p)) (filter scriptOrStyle files) in
  let start := ([SetStatus 200; CallHook "render:route" url before c0]
                  ++ etagEvents generateETag p result) ++ linkEvents links in
  middleware p req
  = match csp (render (options p)) with
    | None =>
        (Returned (RetHtml (html result)),
         {| events := start ++ sendEvents url result ctx; context := ctx |})
    | Some c =>
        match getCspString (cspScriptSrcHashSet result) (allowedSources c) (policies c)
                (dev (options p)) with
        | (Returned v, hashSet') =>
            (Returned (RetHtml (html result)),
             {| events := start ++ SetHeader (cspHeader c) (HString v)
                            :: sendEvents url (withHashSet result hashSet') ctx;
                context := ctx |})
        | (Threw err, _) =>
            if ctx_redirected ctx
            then (Returned (RetError err),
                  {| events := start ++ [ConsolaError err]; context := ctx |})
            else (Returned RetUndefined,
                  {| events := start ++ [Next err]; context := ctx |})
        end
    end.
Proof.
  intros Hred Herr Hnm Hpush Hcustom Hshould Hfiles Hmanifest links start.
  rewrite middleware_rendered. unfold try_catch.
  rewrite (respond_normal _ Hred Herr Hnm).
  unfold afterETag. unfold bind at 1.
  rewrite (pushHeaders_default _ _ _ Herr Hpush Hcustom Hshould Hfiles Hmanifest).
  unfold bind. rewrite cspHeaders_run.
  destruct (csp (render (options p))) as [c |].
  - destruct (getCspString _ _ _ _) as [[v | err] hashSet'].
    + rewrite sendResponse_run. simpl. rewrite <- app_assoc. reflexivity.
    + rewrite catchBlock_run. simpl. reflexivity.
  - rewrite sendResponse_run. simpl. reflexivity.
Qed.

(** C7. Under the default selection (no [pushAssets], no [shouldPush]) with
    push enabled, on a response that is neither redirected, nor an error,
    nor a 304: [defaultPushAssets] returns one link for each preload entry
    whose [asType] is 'script' or 'style', in order, and none for any other
    entry; a link is [<publicPath+file>; rel=R;C as=asType] where [R] is
    modulepreload for a modern entry and preload otherwise and [C] is
    [ crossorigin=value;] when [build.crossorigin] is set; and the Link
    header is these links joined with [, ], or is not set when there is no
    link. *)
Theorem default_push_link_header (files : list PreloadEntry) (manifest : ClientManifest) :
  redirected result = false ->
  error result = None ->
  notModified generateETag fresh p req result = false ->
  push (http2 (render (options p))) = true ->
  pushAssets (http2 (render (options p))) = None ->
  shouldPush (http2 (render (options p))) = None ->
  getPreloadFiles result tt = Returned files ->
  clientManifest (resources p) = Some manifest ->
  let path := publicPath manifest in
  let links := map (linkOf path (options p)) (filter scriptOrStyle files) in
  (forall s, defaultPushAssets files None path (options p) s = (Returned links, s))
  /\ (forall entry,
        linkOf path (options p) entry
        = ("<" ++ path ++ file entry ++ ">; rel="
             ++ (if modern entry then "modulepreload" else "preload") ++ ";"
             ++ match build_crossorigin (options p) with
                | None | Some "" => ""
                | Some value => " crossorigin=" ++ value ++ ";"
                end
             ++ " as=" ++ asType entry)%string)
  /\ headerValue "Link" (events (snd (middleware p req)))
     = match links with
       | [] => None
       | _ :: _ => Some (HString (join ", " links))
       end.
Proof.
  intros Hred Herr Hnm Hpush Hcustom Hshould Hfiles Hmanifest path links.
  split; [| split].
  - intros s. apply defaultPushAssets_default.
  - intros entry. unfold linkOf, truthy_string.
    destruct (build_crossorigin (options p)) as [[| a value] |]; reflexivity.
  - rewrite (middleware_pushed _ _ Hred Herr Hnm Hpush Hcustom Hshould Hfiles Hmanifest).
    fold path. fold links.
    assert (Hstart : headerValue "Link"
                       (([SetStatus 200; CallHook "render:route" url before c0]
                           ++ etagEvents generateETag p result) ++ linkEvents links)
                     = match links with
                       | [] => None
                       | _ :: _ => Some (HString (join ", " links))
                       end).
    { rewrite headerValue_app. destruct links as [| link rest]; [| reflexivity].
      unfold etagEvents. destruct (etag (render (options p))); reflexivity. }
    destruct (csp (render (options p))) as [c |].
    + destruct (getCspString _ _ _ _) as [[v | err] hashSet'].
      * cbn [snd events]. rewrite headerValue_app, Hstart.
        unfold cspHeader. destruct (reportOnly c); reflexivity.
      * destruct (ctx_redirected ctx); cbn [snd events];
          rewrite headerValue_app, Hstart; reflexivity.
    + cbn [snd events]. rewrite headerValue_app, Hstart. reflexivity.
Qed.

Lemma tryBlock_rendered :
  tryBlock generateETag fresh p req url (initial_state getContext req)
  = responding p req url result (rendered_state url before c0 ctx).
Proof.
  unfold tryBlock, awaitRenderRoute, awaitRenderRouteHook.
  unfold bind, get_context, put_context, lift, emit, ret; simpl.
  rewrite Hrender; simpl. rewrite Hhook; simpl. reflexivity.
Qed.

Lemma cspHeaders_html (s s' : State) (r : RenderResult) :
  cspHeaders p result s = (Returned r, s') -> html r = html result.
Proof.
  rewrite cspHeaders_run.
  destruct (csp (render (options p))) as [c |].
  - destruct (getCspString _ _ _ _) as [[v | err] hashSet']; intros H.
    + injection H as Hr _. subst r. reflexivity.
    + discriminate H.
  - intros H. injection H as Hr _. subst r. reflexivity.
Qed.

Lemma afterETag_returns (s s' : State) (v : ReturnValue) :
  afterETag p url result s = (Returned v, s') -> v = RetHtml (html result).
Proof.
  unfold afterETag. intros H.
  apply bind_inv_returned in H. destruct H as [[] [s1 [_ H]]].
  apply bind_inv_returned in H. destruct H as [r [s2 [Hcsp H]]].
  rewrite sendResponse_run in H. injection H as Hv _.
  rewrite <- Hv. rewrite (cspHeaders_html _ _ _ Hcsp). reflexivity.
Qed.

(** C10. When the [try] block completes without an exception, the handler
    returns what the block returns: nothing ([undefined]) on the 304
    short-circuit, that is when the result is not redirected and has no
    error, [etag] is enabled and the request is fresh; the rendered HTML
    string on every other path. *)
Theorem return_value_of_completed_handler (v : ReturnValue) (s' : State) :
  tryBlock generateETag fresh p req url (initial_state getContext req) = (Returned v, s') ->
  middleware p req = (Returned v, s')
  /\ v = if notModified generateETag fresh p req result
         then RetUndefined
         else RetHtml (html result).
Proof.
  intros Htry. rewrite tryBlock_rendered in Htry. split.
  - rewrite middleware_rendered. unfold try_catch. rewrite Htry. reflexivity.
  - unfold notModified. unfold respond in Htry.
    destruct (redirected result); simpl.
    + injection Htry as Hv _. symmetry. exact Hv.
    + apply bind_inv_returned in Htry. destruct Htry as [[] [s1 [Hstatus Hrest]]].
      destruct (error result) as [e |].
      * exact (afterETag_returns _ _ _ Hrest).
      * destruct (etag (render (options p))) as [etagOptions |].
        -- destruct (fresh (req_headers req) (generateETag (html result) etagOptions)).
           ++ injection Hrest as Hv _. symmetry. exact Hv.
           ++ apply bind_inv_returned in Hrest. destruct Hrest as [[] [s2 [_ Hrest]]].
              exact (afterETag_returns _ _ _ Hrest).
        -- exact (afterETag_returns _ _ _ Hrest).
Qed.

End Rendered.

(** ** The status code on every path *)

Section Status.

Variable getContext : Request -> Context.
Variable decodeURI : string -> Outcome string.
Variable generateETag : string -> EtagOptions -> string.
Variable fresh : list (string * string) -> string -> bool.

Local Notation "'middleware'" := (nuxtMiddleware getContext decodeURI generateETag fresh).
Local Notation "'responding'" := (respond generateETag fresh).

Lemma after_step_status (p : Params) (url : string) (result : RenderResult)
    (s : State) (e : Event) :
  exists evs,
    snd (afterETag p url result {| events := events s ++ [e]; context := context s |})
    = {| events := events s ++ evs; context := context s |}
    /\ statusCodes evs = statusCodes [e].
Proof.
  destruct (framed_afterETag p url result
              {| events := events s ++ [e]; context := context s |}) as [evs [Hs Hevs]].
  exists ([e] ++ evs). simpl in Hs. rewrite Hs, <- app_assoc. split; [reflexivity |].
  rewrite statusCodes_app, (statusCodes_quiet _ Hevs), app_nil_r. reflexivity.
Qed.

Lemma respond_status (p : Params) (req : Request) (url : string) (result : RenderResult)
    (s : State) :
  exists evs,
    snd (responding p req url result s)
    = {| events := events s ++ evs; context := context s |}
    /\ (statusCodes evs = []
        \/ statusCodes evs = [304]
        \/ exists nuxtState e',
             ctx_nuxt (context s) = Some nuxtState
             /\ nuxt_error nuxtState = Some e'
             /\ statusCodes evs = [number_or (statusCode e') 500]).
Proof.
  unfold respond. destruct (redirected result).
  - eexists. split; [reflexivity | left; reflexivity].
  - unfold setErrorStatus. destruct (error result) as [e |].
    + unfold bind at 1 2. unfold get_context at 1.
      destruct (ctx_nuxt (context s)) as [nuxtState |] eqn:Hnuxt.
      * destruct (nuxt_error nuxtState) as [e' |] eqn:Hnerr.
        -- unfold emit at 1.
           destruct (after_step_status p url result s
                       (SetStatus (number_or (statusCode e') 500))) as [evs [Hs Hevs]].
           exists evs. split; [exact Hs |].
           right; right. exists nuxtState, e'. repeat split; assumption.
        -- exists []. simpl. rewrite app_nil_r, state_eta.
           split; [reflexivity | left; reflexivity].
      * exists []. simpl. rewrite app_nil_r, state_eta.
        split; [reflexivity | left; reflexivity].
    + unfold bind at 1. unfold ret at 1.
      destruct (etag (render (options p))) as [etagOptions |].
      * destruct (fresh (req_headers req) (generateETag (html result) etagOptions)).
        -- eexists. unfold bind, emit, routeDone, get_context, ret; simpl.
           repeat rewrite <- app_assoc. split; [reflexivity | right; left; reflexivity].
        -- unfold bind at 1. unfold emit at 1.
           destruct (after_step_status p url result s
                       (SetHeader "ETag" (HString (generateETag (html result) etagOptions))))
             as [evs [Hs Hevs]].
           exists evs. split; [exact Hs | left; exact Hevs].
      * destruct (framed_afterETag p url result s) as [evs [Hs Hevs]].
        exists evs. split; [exact Hs | left; apply statusCodes_quiet; exact Hevs].
Qed.

(** C2 (amended). When the render result carries an error and is not
    redirected, and [context.nuxt.error] is an object, the status is set to
    the [statusCode] of that object, the error of the request context, and to
    500 when that status code is missing or falsy (0). Hence, once the URL is
    decoded, the handler assigns the status 200 first and at most one status
    afterwards, 304 or [context.nuxt.error.statusCode || 500]; it assigns
    none at all only when [decodeURI] throws. *)
Theorem response_status_codes (p : Params) (req : Request) :
  (statusCodes (events (snd (middleware p req))) = []
   \/ statusCodes (events (snd (middleware p req))) = [200]
   \/ statusCodes (events (snd (middleware p req))) = [200; 304]
   \/ exists nuxtState e',
        ctx_nuxt (context (snd (middleware p req))) = Some nuxtState
        /\ nuxt_error nuxtState = Some e'
        /\ statusCodes (events (snd (middleware p req)))
           = [200; number_or (statusCode e') 500])
  /\ (forall url before result c0 ctx e e' nuxtState,
        decodeURI (req_url req) = Returned url ->
        renderRoute p url (getContext req)
        = {| render_outcome := Returned before; render_context := c0 |} ->
        callHook (nuxt p) "render:route" url before c0
        = {| hook_outcome := Returned tt; hook_result := result; hook_context := ctx |} ->
        redirected result = false ->
        error result = Some e ->
        ctx_nuxt ctx = Some nuxtState ->
        nuxt_error nuxtState = Some e' ->
        statusCodes (events (snd (middleware p req)))
        = [200; number_or (statusCode e') 500]
        /\ (statusCode e' = None -> statusCodes (events (snd (middleware p req))) = [200; 500])
        /\ (forall n, statusCode e' = Some n -> n <> 0 ->
            statusCodes (events (snd (middleware p req))) = [200; n]))
  /\ (forall url,
        decodeURI (req_url req) = Returned url ->
        statusCodes (events (snd (middleware p req))) = [200]
        \/ statusCodes (events (snd (middleware p req))) = [200; 304]
        \/ exists nuxtState e',
             ctx_nuxt (context (snd (middleware p req))) = Some nuxtState
             /\ nuxt_error nuxtState = Some e'
             /\ statusCodes (events (snd (middleware p req)))
                = [200; number_or (statusCode e') 500]).
Proof.
  assert (Hdecoded : forall url,
            decodeURI (req_url req) = Returned url ->
            statusCodes (events (snd (middleware p req))) = [200]
            \/ statusCodes (events (snd (middleware p req))) = [200; 304]
            \/ exists nuxtState e',
                 ctx_nuxt (context (snd (middleware p req))) = Some nuxtState
                 /\ nuxt_error nuxtState = Some e'
                 /\ statusCodes (events (snd (middleware p req)))
                    = [200; number_or (statusCode e') 500]).
  { intros url Hurl. unfold nuxtMiddleware. rewrite Hurl.
    unfold try_catch, tryBlock, awaitRenderRoute, awaitRenderRouteHook.
    unfold bind, emit, get_context, put_context, lift, ret; simpl.
    destruct (renderRoute p url (getContext req)) as [[before | err] c0]; simpl.
    + destruct (callHook (nuxt p) "render:route" url before c0)
        as [[[] | err] result ctx]; simpl.
      * destruct (respond_status p req url result (rendered_state url before c0 ctx))
          as [evs [Hs Hevs]].
        fold (rendered_state url before c0 ctx).
        destruct (responding p req url result (rendered_state url before c0 ctx))
          as [[v | err] s'].
        -- simpl in Hs |- *. subst s'. simpl.
           destruct Hevs as [H | [H | [nuxtState [e' [H1 [H2 H]]]]]]; rewrite H.
           ++ left; reflexivity.
           ++ right; left; reflexivity.
           ++ right; right. exists nuxtState, e'. repeat split; assumption.
        -- simpl in Hs. subst s'. rewrite catchBlock_run. simpl.
           destruct (ctx_redirected ctx); simpl;
             rewrite statusCodes_app, app_nil_r;
             (destruct Hevs as [H | [H | [nuxtState [e' [H1 [H2 H]]]]]]; rewrite H;
              [ left; reflexivity
              | right; left; reflexivity
              | right; right; exists nuxtState, e'; repeat split; assumption ]).
      * rewrite catchBlock_run. simpl. destruct (ctx_redirected ctx); left; reflexivity.
    + rewrite catchBlock_run. simpl. destruct (ctx_redirected c0); left; reflexivity. }
  split; [| split].
  - destruct (decodeURI (req_url req)) as [url | err] eqn:Hurl.
    + right. exact (Hdecoded url eq_refl).
    + left. unfold nuxtMiddleware. rewrite Hurl. reflexivity.
  - intros url before result c0 ctx e e' nuxtState Hurl Hrender Hhook Hred Herr Hnuxt Hnerr.
    assert (Hcodes : statusCodes (events (snd (middleware p req)))
                     = [200; number_or (statusCode e') 500]).
    { rewrite (middleware_error getContext decodeURI generateETag fresh p req url
                 before result c0 ctx Hurl Hrender Hhook e e' nuxtState Hred Herr Hnuxt Hnerr).
      destruct (csp (render (options p))) as [c |]; [| reflexivity].
      destruct (getCspString _ _ _ _) as [[v | err] hashSet']; [reflexivity |].
      destruct (ctx_redirected ctx); reflexivity. }
    rewrite Hcodes. split; [reflexivity | split].
    + intros Hnone. rewrite Hnone. reflexivity.
    + intros n Hsome Hn. rewrite Hsome. unfold number_or.
      destruct (Z.eqb_spec n 0) as [H0 | _]; [contradiction | reflexivity].
  - exact Hdecoded.
Qed.

(** The [try] block only adds events, none of them a call of [next] or of
    [consola.error]. *)
Lemma tryBlock_events (p : Params) (req : Request) (url : string) (s : State) :
  exists evs,
    events (snd (tryBlock generateETag fresh p req url s)) = events s ++ evs
    /\ Forall notCaught evs.
Proof.
  unfold tryBlock, awaitRenderRoute, awaitRenderRouteHook.
  unfold bind, get_context, put_context, lift, emit, ret; simpl.
  destruct (renderRoute p url (context s)) as [[before | err] c0]; simpl.
  - destruct (callHook (nuxt p) "render:route" url before c0)
      as [[[] | err] result ctx]; simpl.
    + destruct (framed_respond generateETag fresh p req url result
                  {| events := events s ++ [CallHook "render:route" url before c0];
                     context := ctx |}) as [evs [Hs Hevs]].
      rewrite Hs. simpl. rewrite <- app_assoc.
      eexists. split; [reflexivity |]. constructor; [exact I | exact Hevs].
    + eexists. split; [reflexivity |]. repeat constructor.
  - exists []. rewrite app_nil_r. split; [reflexivity | constructor].
Qed.

(** An exception of the renderer reaches the [catch] block. *)
Lemma tryBlock_renderer_throws (p : Params) (req : Request) (url : string) (s : State)
    (err : JsError) :
  render_outcome (renderRoute p url (context s)) = Threw err ->
  tryBlock generateETag fresh p req url s
  = (Threw err,
     {| events := events s; context := render_context (renderRoute p url (context s)) |}).
Proof.
  intros Hthrow. unfold tryBlock, awaitRenderRoute.
  unfold bind, get_context, put_context, lift; simpl. rewrite Hthrow. reflexivity.
Qed.

(** C8. When the [try] block (rendering, the [render:route] hook and the
    finalization of the response) throws [err]: if [context.redirected] is
    falsy, [err] is passed to [next], is not logged, and the handler returns
    nothing; if it is truthy, [err] is logged with [consola.error], is not
    passed to [next], and is returned as the value of the handler. *)
Theorem exception_forwarded_unless_redirected (p : Params) (req : Request) (url : string)
    (err : JsError) (s' : State) :
  decodeURI (req_url req) = Returned url ->
  tryBlock generateETag fresh p req url (initial_state getContext req) = (Threw err, s') ->
  (ctx_redirected (context s') = false ->
   fst (middleware p req) = Returned RetUndefined
   /\ events (snd (middleware p req)) = events s' ++ [Next err]
   /\ forwarded (events (snd (middleware p req))) = [err]
   /\ logged (events (snd (middleware p req))) = [])
  /\ (ctx_redirected (context s') = true ->
      fst (middleware p req) = Returned (RetError err)
      /\ events (snd (middleware p req)) = events s' ++ [ConsolaError err]
      /\ logged (events (snd (middleware p req))) = [err]
      /\ forwarded (events (snd (middleware p req))) = []).
Proof.
  intros Hurl Htry.
  assert (Hclean : forwarded (events s') = [] /\ logged (events s') = []).
  { destruct (tryBlock_events p req url (initial_state getContext req)) as [evs [Hs Hevs]].
    rewrite Htry in Hs. simpl in Hs. rewrite Hs.
    destruct (forwarded_notCaught _ Hevs) as [Hf Hl].
    unfold forwarded, logged in *. simpl. rewrite Hf, Hl. split; reflexivity. }
  destruct Hclean as [Hf Hl].
  assert (Hrun : middleware p req = catchBlock err s').
  { unfold nuxtMiddleware. rewrite Hurl. unfold bind at 1. unfold emit at 1. simpl.
    unfold try_catch. fold (initial_state getContext req). rewrite Htry. reflexivity. }
  rewrite Hrun, catchBlock_run.
  split; intros Hredirected; rewrite Hredirected; simpl;
    unfold forwarded, logged in *; rewrite !flat_map_app, Hf, Hl;
    repeat split; reflexivity.
Qed.

End Status.

Lemma redirected_returns_html_only_witness :
  let p := ex_params (ex_options (Some {| weak := true |}) true (Some ex_csp_flat))
             (ex_renderRoute (ex_result (Some {| statusCode := Some 404 |}) true)
                (ex_context (Some {| statusCode := Some 404 |}) true)) in
  let out := ex_middleware p (ex_request []) in
  fst out = Returned (RetHtml "<html></html>")
  /\ headersSet (events (snd out)) = []
  /\ statusCodes (events (snd out)) = [200]
  /\ bodiesWritten (events (snd out)) = []
  /\ hookCalls "render:routeDone" (events (snd out))
     = [ex_result (Some {| statusCode := Some 404 |}) true].
Proof.
  exact (redirected_returns_html_only ex_getContext ex_decodeURI ex_generateETag ex_fresh
           (ex_params (ex_options (Some {| weak := true |}) true (Some ex_csp_flat))
              (ex_renderRoute (ex_result (Some {| statusCode := Some 404 |}) true)
                 (ex_context (Some {| statusCode := Some 404 |}) true)))
           (ex_request []) "/about"
           (ex_result (Some {| statusCode := Some 404 |}) true)
           (ex_result (Some {| statusCode := Some 404 |}) true)
           (ex_context (Some {| statusCode := Some 404 |}) true)
           (ex_context (Some {| statusCode := Some 404 |}) true)
           eq_refl eq_refl eq_refl eq_refl).
Defined.

Lemma fresh_etag_not_modified_witness :
  let p := ex_params (ex_options (Some {| weak := true |}) true (Some ex_csp_flat))
             (ex_renderRoute (ex_result None false) (ex_context None false)) in
  let out := ex_middleware p (ex_request [("if-none-match", "W/<html></html>")]) in
  out
  = (Returned RetUndefined,
     {| events := [SetStatus 200;
                   CallHook "render:route" "/about" (ex_result None false)
                     (ex_context None false);
                   SetStatus 304; End None;
                   CallHook "render:routeDone" "/about" (ex_result None false)
                     (ex_context None false)];
        context := ex_context None false |})
  /\ statusCodes (events (snd out)) = [200; 304]
  /\ bodiesWritten (events (snd out)) = [None]
  /\ headersSet (events (snd out)) = []
  /\ hookCalls "render:routeDone" (events (snd out)) = [ex_result None false].
Proof.
  exact (fresh_etag_not_modified ex_getContext ex_decodeURI ex_generateETag ex_fresh
           (ex_params (ex_options (Some {| weak := true |}) true (Some ex_csp_flat))
              (ex_renderRoute (ex_result None false) (ex_context None false)))
           (ex_request [("if-none-match", "W/<html></html>")]) "/about"
           (ex_result None false) (ex_result None false)
           (ex_context None false) (ex_context None false)
           eq_refl eq_refl eq_refl {| weak := true |} eq_refl eq_refl eq_refl eq_refl).
Defined.

(** A redirected render result with no error, [etag] enabled and a fresh
    request: the handler takes the redirect exit of line 24, so the status
    stays 200 and the HTML is returned. *)
Lemma fresh_etag_redirected_counterexample :
  let result := ex_result None true in
  let p := ex_params (ex_options (Some {| weak := true |}) false None)
             (ex_renderRoute result (ex_context None true)) in
  let req := ex_request [("if-none-match", "W/<html></html>")] in
  let out := ex_middleware p req in
  error result = None
  /\ etag (render (options p)) = Some {| weak := true |}
  /\ ex_fresh (req_headers req) (ex_generateETag (html result) {| weak := true |}) = true
  /\ statusCodes (events (snd out)) = [200]
  /\ ~ In 304 (statusCodes (events (snd out)))
  /\ fst out = Returned (RetHtml "<html></html>").
Proof.
  simpl. repeat split; try reflexivity.
  intros [H | [ ]]. discriminate H.
Qed.

Lemma error_result_headers_witness :
  let failure := Some {| statusCode := Some 404 |} in
  let p := ex_params (ex_options (Some {| weak := true |}) true (Some ex_csp_flat))
             (ex_renderRoute (ex_result failure false) (ex_context failure false)) in
  let out := ex_middleware p (ex_request []) in
  (~ In "ETag" (headersSet (events (snd out))) /\ ~ In "Link" (headersSet (events (snd out))))
  /\ headersSet (events (snd out))
     = ["Content-Security-Policy"; "Content-Type"; "Accept-Ranges"; "Content-Length"]
  /\ headerValue "Content-Security-Policy" (events (snd out))
     = Some (HString "script-src 'self' 'sha256-abc' https://cdn.example.com")
  /\ bodiesWritten (events (snd out)) = [Some "<html></html>"]
  /\ fst out = Returned (RetHtml "<html></html>").
Proof.
  intros failure p out.
  destruct (error_result_headers ex_getContext ex_decodeURI ex_generateETag ex_fresh
              p (ex_request []) "/about"
              (ex_result failure false) (ex_result failure false)
              (ex_context failure false) (ex_context failure false)
              eq_refl eq_refl eq_refl
              {| statusCode := Some 404 |}
              eq_refl eq_refl) as [Hnone Hsent].
  destruct (Hsent {| nuxt_error := failure |} {| statusCode := Some 404 |}
              eq_refl eq_refl) as [_ Hcsp].
  destruct (Hcsp ex_csp_flat _ _ eq_refl eq_refl) as [Hheaders [Hvalue Hbody]].
  destruct (Hbody eq_refl) as [Hwritten Hreturned].
  repeat split; try assumption; apply Hnone.
Defined.

(** An error page rendered with [csp] configured: the CSP header is set. *)
Lemma error_result_csp_counterexample :
  let failure := Some {| statusCode := Some 404 |} in
  let result := ex_result failure false in
  let p := ex_params (ex_options None false (Some ex_csp_flat))
             (ex_renderRoute result (ex_context failure false)) in
  let out := ex_middleware p (ex_request []) in
  error result = failure
  /\ redirected result = false
  /\ In "Content-Security-Policy" (headersSet (events (snd out)))
  /\ headerValue "Content-Security-Policy" (events (snd out))
     = Some (HString "script-src 'self' 'sha256-abc' https://cdn.example.com").
Proof.
  simpl. repeat split; try reflexivity. left; reflexivity.
Qed.

Lemma response_status_codes_witness :
  let failure := Some {| statusCode := Some 404 |} in
  let p := ex_params (ex_options (Some {| weak := true |}) true (Some ex_csp_flat))
             (ex_renderRoute (ex_result failure false) (ex_context failure false)) in
  statusCodes (events (snd (ex_middleware p (ex_request [])))) = [200; 404].
Proof.
  intros failure p.
  destruct (response_status_codes ex_getContext ex_decodeURI ex_generateETag ex_fresh
              p (ex_request [])) as [_ [Herror _]].
  destruct (Herror "/about" (ex_result failure false) (ex_result failure false)
              (ex_context failure false) (ex_context failure false)
              {| statusCode := Some 404 |} {| statusCode := Some 404 |}
              {| nuxt_error := failure |}
              eq_refl eq_refl eq_refl eq_refl eq_refl eq_refl eq_refl) as [Hcodes _].
  exact Hcodes.
Defined.

(** Two error pages. In the first the error object, the same in the render
    result and in the context, has status code 0: the response gets 500. In
    the second the render result says 404 and the context says 503: the
    response gets 503. *)
Lemma error_status_counterexample :
  (let failure := Some {| statusCode := Some 0 |} in
   let result := ex_result failure false in
   let p := ex_params (ex_options None false None)
              (ex_renderRoute result (ex_context failure false)) in
   error result = Some {| statusCode := Some 0 |}
   /\ redirected result = false
   /\ statusCodes (events (snd (ex_middleware p (ex_request [])))) = [200; 500])
  /\ (let result := ex_result (Some {| statusCode := Some 404 |}) false in
      let p := ex_params (ex_options None false None)
                 (ex_renderRoute result
                    (ex_context (Some {| statusCode := Some 503 |}) false)) in
      error result = Some {| statusCode := Some 404 |}
      /\ redirected result = false
      /\ statusCodes (events (snd (ex_middleware p (ex_request [])))) = [200; 503]).
Proof.
  simpl. repeat split; reflexivity.
Qed.

Lemma csp_policies_example_witness :
  let p := ex_params (ex_options None false (Some ex_csp_policies))
             (ex_renderRoute (ex_result None false) (ex_context None false)) in
  fst (getCspString ["'sha256-abc'"] None (Some [("default-src", PArray ["'none'"])]) false)
  = Returned "default-src 'none'; script-src 'sha256-abc' 'self'"
  /\ events (snd (cspHeaders p (ex_result None false)
                    (initial_state ex_getContext (ex_request []))))
     = [SetStatus 200;
        SetHeader "Content-Security-Policy"
          (HString "default-src 'none'; script-src 'sha256-abc' 'self'")].
Proof.
  intros p.
  destruct (csp_policies_example p (ex_result None false) ex_csp_policies
              (initial_state ex_getContext (ex_request []))
              eq_refl eq_refl eq_refl eq_refl) as [Hvalue [_ [_ Hevents]]].
  split; [exact Hvalue | exact Hevents].
Defined.

Lemma csp_allowed_sources_example_witness :
  let hashes := ["'sha256-abc'"; "'sha256-def'"] in
  let p := ex_params (ex_options None false (Some ex_csp_flat))
             (ex_renderRoute (ex_result None false) (ex_context None false)) in
  let result := withHashSet (ex_result None false) hashes in
  fst (getCspString hashes (Some ["https://cdn.example.com"]) None false)
  = Returned "script-src 'self' 'sha256-abc' 'sha256-def' https://cdn.example.com"
  /\ events (snd (cspHeaders p result (initial_state ex_getContext (ex_request []))))
     = [SetStatus 200;
        SetHeader "Content-Security-Policy"
          (HString "script-src 'self' 'sha256-abc' 'sha256-def' https://cdn.example.com")]
  /\ includes "'unsafe-eval'"
       "script-src 'self' 'sha256-abc' 'sha256-def' https://cdn.example.com" = false.
Proof.
  intros hashes p result.
  exact (csp_allowed_sources_example p result ex_csp_flat
           (initial_state ex_getContext (ex_request []))
           eq_refl eq_refl eq_refl eq_refl).
Defined.

Lemma policy_object_updates_hash_set_witness :
  let pol := [("default-src", PArray ["'none'"]);
              ("script-src", PArray ["https://cdn.example.com"; "'sha256-abc'"])] in
  snd (getCspString ["'sha256-abc'"] None (Some pol) false)
  = ["'sha256-abc'"; "'self'"; "https://cdn.example.com"]
  /\ obj_get "default-src" (fst (transformPolicyObject pol ["'sha256-abc'"]))
     = Some (PArray ["'none'"]).
Proof.
  intros pol.
  destruct (policy_object_updates_hash_set pol ["'sha256-abc'"])
    as [_ [_ [Hother [Hset _]]]].
  split.
  - exact (Hset false).
  - apply (Hother "default-src"). discriminate.
Defined.

(** With [allowedSources] an array, [policies] is not looked at: the hash
    set keeps its elements and gets no ['self']. *)
Lemma policy_object_ignored_counterexample :
  let pol := [("script-src", PArray ["https://cdn.example.com"])] in
  let out := getCspString ["'sha256-abc'"] (Some ["https://cdn.example.com"]) (Some pol)
               false in
  snd out = ["'sha256-abc'"]
  /\ ~ In "'self'" (snd out)
  /\ ~ In "https://cdn.example.com" (snd out)
  /\ fst out = Returned "script-src 'self' 'sha256-abc' https://cdn.example.com".
Proof.
  simpl. repeat split; try reflexivity.
  - intros [H | []]. discriminate H.
  - intros [H | []]. discriminate H.
Qed.

Lemma default_push_link_header_witness :
  let p := ex_params (ex_options (Some {| weak := true |}) true None)
             (ex_renderRoute (ex_result None false) (ex_context None false)) in
  headerValue "Link" (events (snd (ex_middleware p (ex_request []))))
  = Some (HString ("</_nuxt/app.js>; rel=preload; as=script, "
                     ++ "</_nuxt/app.css>; rel=preload; as=style, "
                     ++ "</_nuxt/m.js?v=1>; rel=modulepreload; as=script")).
Proof.
  intros p.
  destruct (default_push_link_header ex_getContext ex_decodeURI ex_generateETag ex_fresh
              p (ex_request []) "/about"
              (ex_result None false) (ex_result None false)
              (ex_context None false) (ex_context None false)
              eq_refl eq_refl eq_refl
              ex_files {| publicPath := "/_nuxt/" |}
              eq_refl eq_refl eq_refl eq_refl eq_refl eq_refl eq_refl eq_refl)
    as [_ [_ Hlink]].
  exact Hlink.
Defined.

Lemma exception_forwarded_unless_redirected_witness :
  (let p := ex_params (ex_options None false None)
              (ex_failing_renderRoute (ex_context None false)) in
   let out := ex_middleware p (ex_request []) in
   fst out = Returned RetUndefined
   /\ events (snd out) = [SetStatus 200; Next (Thrown "render failed")]
   /\ forwarded (events (snd out)) = [Thrown "render failed"]
   /\ logged (events (snd out)) = [])
  /\ (let p := ex_params (ex_options None false None)
                 (ex_failing_renderRoute (ex_context None true)) in
      let out := ex_middleware p (ex_request []) in
      fst out = Returned (RetError (Thrown "render failed"))
      /\ events (snd out) = [SetStatus 200; ConsolaError (Thrown "render failed")]
      /\ logged (events (snd out)) = [Thrown "render failed"]
      /\ forwarded (events (snd out)) = []).
Proof.
  split; intros p.
  - destruct (exception_forwarded_unless_redirected ex_getContext ex_decodeURI
                ex_generateETag ex_fresh p (ex_request []) "/about"
                (Thrown "render failed")
                {| events := [SetStatus 200]; context := ex_context None false |}
                eq_refl eq_refl) as [Hforward _].
    exact (Hforward eq_refl).
  - destruct (exception_forwarded_unless_redirected ex_getContext ex_decodeURI
                ex_generateETag ex_fresh p (ex_request []) "/about"
                (Thrown "render failed")
                {| events := [SetStatus 200]; context := ex_context None true |}
                eq_refl eq_refl) as [_ Hlog].
    exact (Hlog eq_refl).
Defined.

Lemma return_value_of_completed_handler_witness :
  let p := ex_params (ex_options (Some {| weak := true |}) true None)
             (ex_renderRoute (ex_result None false) (ex_context None false)) in
  fst (ex_middleware p (ex_request [("if-none-match", "W/<html></html>")]))
  = Returned RetUndefined
  /\ fst (ex_middleware p (ex_request [])) = Returned (RetHtml "<html></html>").
Proof.
  intros p. split.
  - destruct (return_value_of_completed_handler ex_getContext ex_decodeURI
                ex_generateETag ex_fresh p
                (ex_request [("if-none-match", "W/<html></html>")]) "/about"
                (ex_result None false) (ex_result None false)
                (ex_context None false) (ex_context None false)
                eq_refl eq_refl eq_refl
                RetUndefined
                (snd (tryBlock ex_generateETag ex_fresh p
                        (ex_request [("if-none-match", "W/<html></html>")]) "/about"
                        (initial_state ex_getContext
                           (ex_request [("if-none-match", "W/<html></html>")]))))
                eq_refl) as [Hrun _].
    unfold ex_middleware. rewrite Hrun. reflexivity.
  - destruct (return_value_of_completed_handler ex_getContext ex_decodeURI
                ex_generateETag ex_fresh p (ex_request []) "/about"
                (ex_result None false) (ex_result None false)
                (ex_context None false) (ex_context None false)
                eq_refl eq_refl eq_refl
                (RetHtml "<html></html>")
                (snd (tryBlock ex_generateETag ex_fresh p (ex_request []) "/about"
                        (initial_state ex_getContext (ex_request []))))
                eq_refl) as [Hrun _].
    unfold ex_middleware. rewrite Hrun. reflexivity.
Defined.

(** * Further properties *)

(** ** The hash set and the policy object *)

Lemma set_add_absorb (x : string) (s : JsSet) : In x s -> set_add x s = s.
Proof.
  intros Hx. unfold set_add. apply set_has_In in Hx. rewrite Hx. reflexivity.
Qed.

Lemma set_add_all_absorb (src : JsSet) :
  forall target, (forall x, In x src -> In x target) -> set_add_all src target = target.
Proof.
  unfold set_add_all. induction src as [| y src IH]; intros target Hsub; simpl.
  - reflexivity.
  - rewrite (set_add_absorb y target) by (apply Hsub; left; reflexivity).
    apply IH. intros x Hx. apply Hsub. right. exact Hx.
Qed.

Lemma set_add_extends (x : string) (s : JsSet) :
  NoDup s -> NoDup (set_add x s) /\ exists added, set_add x s = s ++ added.
Proof.
  intros Hs. unfold set_add. destruct (set_has x s) eqn:Hhas.
  - split; [exact Hs | exists []; symmetry; apply app_nil_r].
  - split; [| exists [x]; reflexivity].
    apply NoDup_app; [exact Hs | repeat constructor; intros [] |].
    intros y Hy [Heq | []]. subst y.
    apply set_has_In in Hy. rewrite Hy in Hhas. discriminate Hhas.
Qed.

Lemma set_add_all_extends (src : JsSet) :
  forall target,
    NoDup target ->
    NoDup (set_add_all src target) /\ exists added, set_add_all src target = target ++ added.
Proof.
  unfold set_add_all. induction src as [| y src IH]; intros target Htarget; simpl.
  - split; [exact Htarget | exists []; symmetry; apply app_nil_r].
  - destruct (set_add_extends y target Htarget) as [Hnodup [added Hadded]].
    destruct (IH (set_add y target) Hnodup) as [Hnodup' [added' Hadded']].
    split; [exact Hnodup' |].
    exists (added ++ added'). rewrite Hadded', Hadded, app_assoc. reflexivity.
Qed.

Lemma directives_obj_set {V : Type} (k : string) (v : V) (o : JsObject V) :
  map fst (obj_set k v o)
  = if existsb (String.eqb k) (map fst o) then map fst o else map fst o ++ [k].
Proof.
  induction o as [| [k0 v0] o IH]; simpl; [reflexivity |].
  destruct (String.eqb_spec k k0) as [Heq | Hneq]; simpl.
  - subst k0. reflexivity.
  - rewrite IH. destruct (existsb (String.eqb k) (map fst o)); reflexivity.
Qed.

(** The set that [transformPolicyObject] leaves holds ['self'] and the
    sources of [script-src]. *)
Lemma transformed_set_closed (pol : Policies) (hashes : JsSet) :
  let hashes' := snd (transformPolicyObject pol hashes) in
  In "'self'" hashes'
  /\ (forall sources x,
        userHasDefinedScriptSrc pol = Some sources -> In x (set_of_array sources) ->
        In x hashes').
Proof.
  unfold transformPolicyObject. simpl.
  destruct (userHasDefinedScriptSrc pol) as [sources |].
  - split.
    + apply set_add_all_In. left. apply set_add_In. right. reflexivity.
    + intros sources' x Heq Hx. injection Heq as Heq. subst sources'.
      apply set_add_all_In. right. exact Hx.
  - split.
    + apply set_add_In. right. reflexivity.
    + intros sources x Heq. discriminate Heq.
Qed.

Lemma transformPolicyObject_again (pol : Policies) (hashes : JsSet) :
  transformPolicyObject pol (snd (transformPolicyObject pol hashes))
  = transformPolicyObject pol hashes.
Proof.
  destruct (transformed_set_closed pol hashes) as [Hself Hsources].
  unfold transformPolicyObject in *. simpl in *.
  destruct (userHasDefinedScriptSrc pol) as [sources |].
  - rewrite (set_add_absorb _ _ Hself).
    rewrite set_add_all_absorb; [reflexivity |].
    intros x Hx. exact (Hsources sources x eq_refl Hx).
  - rewrite (set_add_absorb _ _ Hself). reflexivity.
Qed.

(** Building the CSP value again from the hash set that a first call left
    gives the same value and leaves the set as it is: the update of the shared
    set is idempotent, whatever the configuration. *)
Theorem getCspString_idempotent (hashes : JsSet) (allowed : option (list string))
    (pol : option Policies) (isDev : bool) :
  getCspString (snd (getCspString hashes allowed pol isDev)) allowed pol isDev
  = getCspString hashes allowed pol isDev.
Proof.
  destruct allowed as [sources |]; [reflexivity |].
  destruct pol as [pol |]; [| reflexivity].
  unfold getCspString.
  pose proof (transformPolicyObject_again pol hashes) as Hagain.
  destruct (transformPolicyObject pol hashes) as [object hashes'].
  cbn [snd] in Hagain |- *. rewrite Hagain. reflexivity.
Qed.

(** The hash set is updated in place: the hashes of the render keep their
    order at the front, what is added comes after them, and no element is
    repeated. So the [script-src] directive lists the render's hashes first. *)
Theorem hash_set_grows_at_the_end (pol : Policies) (hashes : JsSet) :
  NoDup hashes ->
  NoDup (snd (transformPolicyObject pol hashes))
  /\ exists added, snd (transformPolicyObject pol hashes) = hashes ++ added.
Proof.
  intros Hnodup. unfold transformPolicyObject. simpl.
  destruct (set_add_extends "'self'" hashes Hnodup) as [Hself [added Hadded]].
  destruct (userHasDefinedScriptSrc pol) as [sources |].
  - destruct (set_add_all_extends (set_of_array sources) _ Hself) as [Hall [added' Hadded']].
    split; [exact Hall |].
    exists (added ++ added'). rewrite Hadded', Hadded, app_assoc. reflexivity.
  - split; [exact Hself | exists added; exact Hadded].
Qed.

(** The directives keep the order of [policies]; [script-src] keeps its place
    when [policies] has it, whatever its value, and comes last otherwise. *)
Theorem directive_order_kept (pol : Policies) (hashes : JsSet) :
  directives (fst (transformPolicyObject pol hashes))
  = if existsb (String.eqb "script-src") (directives pol)
    then directives pol
    else directives pol ++ ["script-src"].
Proof.
  unfold directives, transformPolicyObject. simpl. apply directives_obj_set.
Qed.

Lemma map_outcome_directiveString (o : Policies) :
  (forallb (fun kv => isArray (snd kv)) o = true ->
   exists strings, map_outcome directiveString o = Returned strings)
  /\ (forallb (fun kv => isArray (snd kv)) o = false ->
      map_outcome directiveString o = Threw (TypeError "v.join is not a function")).
Proof.
  induction o as [| [k v] o [IHok IHthrow]]; simpl.
  - split; [intros _; eexists; reflexivity | intros H; discriminate H].
  - destruct v as [sources | str]; simpl.
    + split.
      * intros Hall. destruct (IHok Hall) as [strings Hstrings].
        rewrite Hstrings. eexists. reflexivity.
      * intros Hsome. rewrite (IHthrow Hsome). reflexivity.
    + split; [intros H; discriminate H | reflexivity].
Qed.

Lemma arrayValued_without_script_src (o : Policies) :
  ~ In "script-src" (directives o) ->
  forallb (fun kv => isArray (snd kv)) o = arrayValued o.
Proof.
  unfold arrayValued, directives.
  induction o as [| [k v] o IH]; simpl; intros Hnot; [reflexivity |].
  destruct (String.eqb_spec k "script-src") as [Heq | _].
  - exfalso. apply Hnot. left. exact Heq.
  - simpl. rewrite IH; [reflexivity |]. intros Hin. apply Hnot. right. exact Hin.
Qed.

Lemma arrayValued_obj_set (hashes : JsSet) (o : Policies) :
  NoDup (directives o) ->
  forallb (fun kv => isArray (snd kv)) (obj_set "script-src" (PArray hashes) o)
  = arrayValued o.
Proof.
  unfold directives. induction o as [| [k v] o IH]; intros Hnodup; [reflexivity |].
  cbn [map fst] in Hnodup.
  inversion Hnodup as [| k' keys Hnotin Hrest]; subst.
  unfold arrayValued. cbn [obj_set forallb fst snd]. fold (arrayValued o).
  rewrite (String.eqb_sym k "script-src").
  destruct (String.eqb_spec "script-src" k) as [Heq | Hneq].
  - subst k. cbn [forallb snd isArray orb andb].
    apply arrayValued_without_script_src. exact Hnotin.
  - cbn [forallb snd orb]. rewrite (IH Hrest). reflexivity.
Qed.

(** With a policy object, [getCspString] returns a value exactly when every
    directive other than [script-src] has an array as value; otherwise it
    throws the TypeError of [v.join]. A [script-src] that is not an array is
    harmless: it is replaced. *)
Theorem policy_values_must_be_arrays (pol : Policies) (hashes : JsSet) (isDev : bool) :
  NoDup (directives pol) ->
  (arrayValued pol = true ->
   exists value, fst (getCspString hashes None (Some pol) isDev) = Returned value)
  /\ (arrayValued pol = false ->
      fst (getCspString hashes None (Some pol) isDev)
      = Threw (TypeError "v.join is not a function")).
Proof.
  intros Hnodup. unfold getCspString, transformPolicyObject. simpl.
  set (hashes' := match userHasDefinedScriptSrc pol with
                  | Some sources => set_add_all (set_of_array sources) (set_add "'self'" hashes)
                  | None => set_add "'self'" hashes
                  end).
  pose proof (arrayValued_obj_set hashes' pol Hnodup) as Hvalued.
  destruct (map_outcome_directiveString (obj_set "script-src" (PArray hashes') pol))
    as [Hok Hthrow].
  rewrite Hvalued in Hok, Hthrow. split.
  - intros Hall. destruct (Hok Hall) as [strings Hstrings].
    rewrite Hstrings. eexists. reflexivity.
  - intros Hsome. rewrite (Hthrow Hsome). reflexivity.
Qed.

(** ** The push block with [shouldPush] or [pushAssets] *)

Lemma forEach_pushLink_predicate (predicate : string -> string -> Outcome bool)
    (decide : string -> string -> bool) (path : string) (o : Options)
    (files : list PreloadEntry) :
  (forall entry, In entry files ->
     predicate (fileWithoutQuery entry) (asType entry)
     = Returned (decide (fileWithoutQuery entry) (asType entry))) ->
  forall (links : list string) (s : State),
    forEach (pushLink (Some predicate) path o) files links s
    = (Returned (links ++ map (linkOf path o)
                   (filter (fun entry => decide (fileWithoutQuery entry) (asType entry))
                      files)), s).
Proof.
  induction files as [| entry files IH]; intros Hdecide links s.
  - simpl. rewrite app_nil_r. reflexivity.
  - cbn [forEach filter]. unfold bind at 1. unfold pushLink at 1.
    unfold bind, lift. rewrite (Hdecide entry) by (left; reflexivity).
    destruct (decide (fileWithoutQuery entry) (asType entry)); cbn [negb];
      unfold ret at 1; rewrite IH by (intros x Hx; apply Hdecide; right; exact Hx).
    + cbn [map]. rewrite <- app_assoc. reflexivity.
    + reflexivity.
Qed.

Lemma defaultPushAssets_predicate (predicate : string -> string -> Outcome bool)
    (decide : string -> string -> bool) (path : string) (o : Options)
    (files : list PreloadEntry) (s : State) :
  (forall entry, In entry files ->
     predicate (fileWithoutQuery entry) (asType entry)
     = Returned (decide (fileWithoutQuery entry) (asType entry))) ->
  defaultPushAssets files (Some predicate) path o s
  = (Returned (map (linkOf path o)
                 (filter (fun entry => decide (fileWithoutQuery entry) (asType entry))
                    files)),
     {| events := events s ++ shouldPushWarning o; context := context s |}).
Proof.
  intros Hdecide. unfold defaultPushAssets, shouldPushWarning. unfold bind at 1.
  destruct (dev o).
  - unfold emit at 1. rewrite (forEach_pushLink_predicate _ decide) by exact Hdecide.
    reflexivity.
  - unfold ret at 1. rewrite (forEach_pushLink_predicate _ decide) by exact Hdecide.
    rewrite app_nil_r, state_eta. reflexivity.
Qed.

(** With [shouldPush] set, [defaultPushAssets] returns the links of exactly
    the entries that [shouldPush] approves, asked with the path without query
    and the type: the restriction to scripts and styles no longer applies. The
    deprecation warning is issued once, in dev mode only. *)
Theorem shouldPush_decides (predicate : string -> string -> Outcome bool)
    (decide : string -> string -> bool) (path : string) (o : Options)
    (files : list PreloadEntry) (s : State) :
  (forall entry, In entry files ->
     predicate (fileWithoutQuery entry) (asType entry)
     = Returned (decide (fileWithoutQuery entry) (asType entry))) ->
  defaultPushAssets files (Some predicate) path o s
  = (Returned (map (linkOf path o)
                 (filter (fun entry => decide (fileWithoutQuery entry) (asType entry))
                    files)),
     {| events := events s ++ shouldPushWarning o; context := context s |}).
Proof. apply defaultPushAssets_predicate. Qed.

(** When [shouldPush] throws on an entry, the iteration stops there:
    [defaultPushAssets] throws the same error and returns no link, even for
    the entries approved before. *)
Theorem shouldPush_exception_aborts (predicate : string -> string -> Outcome bool)
    (path : string) (o : Options) (approved : list PreloadEntry) (entry : PreloadEntry)
    (rest : list PreloadEntry) (err : JsError) (s : State) :
  (forall x, In x approved ->
     exists b, predicate (fileWithoutQuery x) (asType x) = Returned b) ->
  predicate (fileWithoutQuery entry) (asType entry) = Threw err ->
  defaultPushAssets (approved ++ entry :: rest) (Some predicate) path o s
  = (Threw err, {| events := events s ++ shouldPushWarning o; context := context s |}).
Proof.
  intros Hbefore Hthrow.
  assert (Hloop : forall links s0,
             forEach (pushLink (Some predicate) path o) (approved ++ entry :: rest) links s0
             = (Threw err, s0)).
  { induction approved as [| x approved IH]; intros links s0.
    - cbn [app forEach]. unfold bind, pushLink, bind, lift. rewrite Hthrow. reflexivity.
    - cbn [app forEach]. unfold bind at 1. unfold pushLink at 1. unfold bind, lift.
      destruct (Hbefore x (or_introl eq_refl)) as [b Hb]. rewrite Hb.
      destruct b; cbn [negb]; unfold ret at 1;
        apply IH; intros y Hy; apply Hbefore; right; exact Hy. }
  unfold defaultPushAssets, shouldPushWarning. unfold bind at 1.
  destruct (dev o).
  - unfold emit at 1. rewrite Hloop. reflexivity.
  - unfold ret at 1. rewrite Hloop, app_nil_r, state_eta. reflexivity.
Qed.

Lemma headerValue_set (name : string) (evs : list Event) :
  In name (headersSet evs) -> exists v, headerValue name evs = Some v.
Proof.
  induction evs as [| e evs IH] using rev_ind; [intros [] |].
  unfold headersSet. rewrite flat_map_app, in_app_iff. fold (headersSet evs).
  rewrite headerValue_app. intros [Hin | Hlast].
  - destruct (headerValue name [e]) as [v |]; [exists v; reflexivity | apply IH; exact Hin].
  - destruct e as [code | name' v | body | hook u r c | msg | err | err];
      try (destruct Hlast; fail).
    destruct Hlast as [Heq | []]. subst name'.
    exists v. unfold headerValue. simpl. rewrite String.eqb_refl. reflexivity.
Qed.

Section Pushing.

Variable getContext : Request -> Context.
Variable decodeURI : string -> Outcome string.
Variable generateETag : string -> EtagOptions -> string.
Variable fresh : list (string * string) -> string -> bool.

Local Notation "'middleware'" := (nuxtMiddleware getContext decodeURI generateETag fresh).

Variables (p : Params) (req : Request) (url : string).
Variables (before result : RenderResult) (c0 ctx : Context).

Hypothesis Hurl : decodeURI (req_url req) = Returned url.
Hypothesis Hrender :
  renderRoute p url (getContext req)
  = {| render_outcome := Returned before; render_context := c0 |}.
Hypothesis Hhook :
  callHook (nuxt p) "render:route" url before c0
  = {| hook_outcome := Returned tt; hook_result := result; hook_context := ctx |}.
Hypothesis Hred : redirected result = false.
Hypothesis Herr : error result = None.
Hypothesis Hnm : notModified generateETag fresh p req result = false.

(** The whole run once the push block has returned, [pushEvents] being what
    it did. *)
Lemma middleware_after_push (pushEvents : list Event) :
  (forall s, pushHeaders p result s
             = (Returned tt,
                {| events := events s ++ pushEvents; context := context s |})) ->
  let start := ([SetStatus 200; CallHook "render:route" url before c0]
                  ++ etagEvents generateETag p result) ++ pushEvents in
  middleware p req
  = match csp (render (options p)) with
    | None =>
        (Returned (RetHtml (html result)),
         {| events := start ++ sendEvents url result ctx; context := ctx |})
    | Some c =>
        match getCspString (cspScriptSrcHashSet result) (allowedSources c) (policies c)
                (dev (options p)) with
        | (Returned v, hashSet') =>
            (Returned (RetHtml (html result)),
             {| events := start ++ SetHeader (cspHeader c) (HString v)
                            :: sendEvents url (withHashSet result hashSet') ctx;
                context := ctx |})
        | (Threw err, _) =>
            if ctx_redirected ctx
            then (Returned (RetError err),
                  {| events := start ++ [ConsolaError err]; context := ctx |})
            else (Returned RetUndefined,
                  {| events := start ++ [Next err]; context := ctx |})
        end
    end.
Proof.
  intros Hpush start.
  rewrite (middleware_rendered getContext decodeURI generateETag fresh p req url
             before result c0 ctx Hurl Hrender Hhook).
  unfold try_catch.
  rewrite (respond_normal generateETag fresh p req url result _ Hred Herr Hnm).
  unfold afterETag. unfold bind at 1. rewrite Hpush.
  unfold bind. rewrite cspHeaders_run.
  destruct (csp (render (options p))) as [c |].
  - destruct (getCspString _ _ _ _) as [[v | err] hashSet'].
    + rewrite sendResponse_run. simpl. rewrite <- app_assoc. reflexivity.
    + rewrite catchBlock_run. simpl. reflexivity.
  - rewrite sendResponse_run. simpl. reflexivity.
Qed.

(** What follows the push block sets no Link header. *)
Lemma link_header_after_push (pushEvents : list Event) :
  (forall s, pushHeaders p result s
             = (Returned tt,
                {| events := events s ++ pushEvents; context := context s |})) ->
  headerValue "Link" (events (snd (middleware p req))) = headerValue "Link" pushEvents.
Proof.
  intros Hpush. rewrite (middleware_after_push pushEvents Hpush).
  assert (Hstart : headerValue "Link"
                     (([SetStatus 200; CallHook "render:route" url before c0]
                         ++ etagEvents generateETag p result) ++ pushEvents)
                   = headerValue "Link" pushEvents).
  { rewrite headerValue_app. destruct (headerValue "Link" pushEvents); [reflexivity |].
    unfold etagEvents. destruct (etag (render (options p))); reflexivity. }
  destruct (csp (render (options p))) as [c |].
  - destruct (getCspString _ _ _ _) as [[v | err] hashSet'].
    + cbn [snd events]. rewrite headerValue_app, Hstart.
      unfold cspHeader. destruct (reportOnly c); reflexivity.
    + destruct (ctx_redirected ctx); cbn [snd events];
        rewrite headerValue_app, Hstart; reflexivity.
  - cbn [snd events]. rewrite headerValue_app, Hstart. reflexivity.
Qed.

Lemma headerValue_linkEvents (links : list string) :
  headerValue "Link" (linkEvents links)
  = match links with
    | [] => None
    | _ :: _ => Some (HString (join ", " links))
    end.
Proof. destruct links; reflexivity. Qed.

(** With [shouldPush] set and no [pushAssets], the Link header joins the links
    of the entries that [shouldPush] approves; when it approves none, no Link
    header is set. *)
Theorem shouldPush_link_header (predicate : string -> string -> Outcome bool)
    (decide : string -> string -> bool) (files : list PreloadEntry)
    (manifest : ClientManifest) :
  push (http2 (render (options p))) = true ->
  pushAssets (http2 (render (options p))) = None ->
  shouldPush (http2 (render (options p))) = Some predicate ->
  getPreloadFiles result tt = Returned files ->
  clientManifest (resources p) = Some manifest ->
  (forall entry, In entry files ->
     predicate (fileWithoutQuery entry) (asType entry)
     = Returned (decide (fileWithoutQuery entry) (asType entry))) ->
  let links := map (linkOf (publicPath manifest) (options p))
                 (filter (fun entry => decide (fileWithoutQuery entry) (asType entry))
                    files) in
  headerValue "Link" (events (snd (middleware p req)))
  = match links with
    | [] => None
    | _ :: _ => Some (HString (join ", " links))
    end
  /\ ((forall entry, In entry files ->
         decide (fileWithoutQuery entry) (asType entry) = false) ->
      ~ In "Link" (headersSet (events (snd (middleware p req))))).
Proof.
  intros Hpush Hcustom Hshould Hfiles Hmanifest Hdecide links.
  assert (Hblock : forall s, pushHeaders p result s
                     = (Returned tt,
                        {| events := events s
                                     ++ (shouldPushWarning (options p) ++ linkEvents links);
                           context := context s |})).
  { intros s. unfold pushHeaders. rewrite Herr, Hpush, Hfiles, Hmanifest, Hcustom, Hshould.
    unfold bind, lift. rewrite (defaultPushAssets_predicate predicate decide) by exact Hdecide.
    fold links. cbn [events context]. rewrite app_assoc.
    destruct links as [| link rest]; cbn [linkEvents].
    - rewrite app_nil_r. reflexivity.
    - reflexivity. }
  assert (Hvalue : headerValue "Link" (events (snd (middleware p req)))
                   = match links with
                     | [] => None
                     | _ :: _ => Some (HString (join ", " links))
                     end).
  { rewrite (link_header_after_push _ Hblock), headerValue_app, headerValue_linkEvents.
    destruct links; [| reflexivity].
    unfold shouldPushWarning. destruct (dev (options p)); reflexivity. }
  split; [exact Hvalue |].
  intros Hnone Hin. apply headerValue_set in Hin. destruct Hin as [v Hv].
  rewrite Hvalue in Hv.
  assert (Hempty : links = []).
  { subst links. clear - Hnone. induction files as [| entry files IH]; [reflexivity |].
    cbn [filter]. rewrite (Hnone entry) by (left; reflexivity).
    apply IH. intros x Hx. apply Hnone. right. exact Hx. }
  rewrite Hempty in Hv. discriminate Hv.
Qed.

(** With [pushAssets] set, the Link header joins exactly the links that
    [pushAssets] returns for the public path and the preload files, and is not
    set when it returns none; [shouldPush] is not consulted, so no deprecation
    warning is issued even in dev mode. *)
Theorem pushAssets_link_header (custom : string -> list PreloadEntry -> Outcome (list string))
    (files : list PreloadEntry) (links : list string) (manifest : ClientManifest) :
  push (http2 (render (options p))) = true ->
  pushAssets (http2 (render (options p))) = Some custom ->
  getPreloadFiles result tt = Returned files ->
  clientManifest (resources p) = Some manifest ->
  custom (publicPath manifest) files = Returned links ->
  headerValue "Link" (events (snd (middleware p req)))
  = match links with
    | [] => None
    | _ :: _ => Some (HString (join ", " links))
    end
  /\ warnings (events (snd (middleware p req))) = [].
Proof.
  intros Hpush Hcustom Hfiles Hmanifest Hlinks.
  assert (Hblock : forall s, pushHeaders p result s
                     = (Returned tt,
                        {| events := events s ++ linkEvents links;
                           context := context s |})).
  { intros s. unfold pushHeaders. rewrite Herr, Hpush, Hfiles, Hmanifest, Hcustom.
    unfold bind, lift. rewrite Hlinks.
    destruct links as [| link rest]; cbn [linkEvents].
    - unfold ret. rewrite app_nil_r, state_eta. reflexivity.
    - reflexivity. }
  split.
  - rewrite (link_header_after_push _ Hblock). apply headerValue_linkEvents.
  - rewrite (middleware_after_push _ Hblock).
    assert (Hstart : warnings (([SetStatus 200; CallHook "render:route" url before c0]
                                  ++ etagEvents generateETag p result) ++ linkEvents links)
                     = []).
    { unfold warnings. rewrite !flat_map_app. unfold etagEvents.
      destruct (etag (render (options p))); destruct links; reflexivity. }
    unfold warnings in *.
    destruct (csp (render (options p))) as [c |].
    + destruct (getCspString _ _ _ _) as [[v | err] hashSet'].
      * cbn [snd events]. rewrite flat_map_app, Hstart. reflexivity.
      * destruct (ctx_redirected ctx); cbn [snd events];
          rewrite flat_map_app, Hstart; reflexivity.
    + cbn [snd events]. rewrite flat_map_app, Hstart. reflexivity.
Qed.

(** The hash set of the render result is shared with the hooks: when the CSP
    header is built, the [render:routeDone] handlers receive the result with
    the hash set as [getCspString] left it, while the [render:route] handlers
    were given the result as the renderer returned it. *)
Theorem routeDone_sees_updated_hash_set (c : CspOptions) (v : string) (hashSet' : JsSet) :
  push (http2 (render (options p))) = false ->
  csp (render (options p)) = Some c ->
  getCspString (cspScriptSrcHashSet result) (allowedSources c) (policies c)
    (dev (options p)) = (Returned v, hashSet') ->
  hookCalls "render:routeDone" (events (snd (middleware p req)))
  = [withHashSet result hashSet']
  /\ hookCalls "render:route" (events (snd (middleware p req))) = [before].
Proof.
  intros Hpush Hcsp Hvalue.
  assert (Hblock : forall s, pushHeaders p result s
                     = (Returned tt,
                        {| events := events s ++ []; context := context s |})).
  { intros s. unfold pushHeaders. rewrite Herr, Hpush.
    unfold ret. rewrite app_nil_r, state_eta. reflexivity. }
  rewrite (middleware_after_push _ Hblock), Hcsp, Hvalue.
  cbn [snd events]. unfold hookCalls. rewrite !flat_map_app. unfold etagEvents.
  destruct (etag (render (options p))); split; reflexivity.
Qed.

End Pushing.

(** ** The form of every run *)

Lemma framed_pushOrCsp_defaultPushAssets (files : list PreloadEntry)
    (predicate : option (string -> string -> Outcome bool)) (path : string) (o : Options) :
  framed pushOrCsp (defaultPushAssets files predicate path o).
Proof. unfold defaultPushAssets, pushLink. framed_auto; exact I. Qed.

Lemma framed_pushOrCsp_pushHeaders (p : Params) (result : RenderResult) :
  framed pushOrCsp (pushHeaders p result).
Proof.
  unfold pushHeaders. framed_auto; try apply framed_pushOrCsp_defaultPushAssets.
  simpl. discriminate.
Qed.

Lemma pushOrCsp_preparing (evs : list Event) : Forall pushOrCsp evs -> Forall preparing evs.
Proof.
  apply Forall_impl. intros [] H; simpl in H |- *; try exact I; contradiction.
Qed.

(** The blocks after the ETag block either throw, having set headers other
    than ETag at most, or send the response. *)
Lemma afterETag_shape (p : Params) (url : string) (result : RenderResult) (s : State) :
  exists pre,
    Forall pushOrCsp pre
    /\ ((exists err,
           afterETag p url result s
           = (Threw err, {| events := events s ++ pre; context := context s |}))
        \/ (exists r,
              html r = html result
              /\ afterETag p url result s
                 = (Returned (RetHtml (html result)),
                    {| events := events s ++ pre ++ sendEvents url r (context s);
                       context := context s |}))).
Proof.
  destruct (framed_pushOrCsp_pushHeaders p result s) as [evs1 [Hs1 H1]].
  assert (Hrun : afterETag p url result s
                 = match pushHeaders p result s with
                   | (Returned _, s1) =>
                       bind (cspHeaders p result) (fun r => sendResponse url r) s1
                   | (Threw e, s1) => (Threw e, s1)
                   end).
  { unfold afterETag. unfold bind at 1.
    destruct (pushHeaders p result s) as [[[] | e] s1]; reflexivity. }
  rewrite Hrun. clear Hrun.
  destruct (pushHeaders p result s) as [[[] | err] s1]; simpl in Hs1; subst s1.
  - unfold bind. rewrite cspHeaders_run.
    destruct (csp (render (options p))) as [c |].
    + destruct (getCspString _ _ _ _) as [[v | err] hashSet'].
      * rewrite sendResponse_run. cbn [events context].
        exists (evs1 ++ [SetHeader (cspHeader c) (HString v)]). split.
        -- apply Forall_app. split; [exact H1 |]. repeat constructor.
           unfold cspHeader. destruct (reportOnly c); simpl; discriminate.
        -- right. exists (withHashSet result hashSet'). split; [reflexivity |].
           rewrite <- !app_assoc. reflexivity.
      * exists evs1. split; [exact H1 |]. left. exists err. reflexivity.
    + rewrite sendResponse_run. cbn [events context].
      exists evs1. split; [exact H1 |]. right. exists result. split; [reflexivity |].
      rewrite <- app_assoc. reflexivity.
  - exists evs1. split; [exact H1 |]. left. exists err. reflexivity.
Qed.

Section AllRuns.

Variable getContext : Request -> Context.
Variable decodeURI : string -> Outcome string.
Variable generateETag : string -> EtagOptions -> string.
Variable fresh : list (string * string) -> string -> bool.

Local Notation "'middleware'" := (nuxtMiddleware getContext decodeURI generateETag fresh).
Local Notation "'responding'" := (respond generateETag fresh).

(** What [respond] does after a state [s], and how the [catch] block
    completes it. *)
Lemma respond_run (p : Params) (req : Request) (url : string) (result : RenderResult)
    (s : State) :
  Forall preparing (events s) ->
  Run (events (snd (try_catch (responding p req url result) catchBlock s)))
      (fst (try_catch (responding p req url result) catchBlock s)).
Proof.
  intros Hs.
  assert (Hafter : forall e, preparing e ->
            Run (events (snd (try_catch (afterETag p url result) catchBlock
                                {| events := events s ++ [e]; context := context s |})))
                (fst (try_catch (afterETag p url result) catchBlock
                        {| events := events s ++ [e]; context := context s |}))).
  { intros e He.
    destruct (afterETag_shape p url result
                {| events := events s ++ [e]; context := context s |})
      as [pre [Hpre [[err Hrun] | [r [Hhtml Hrun]]]]];
      unfold try_catch; rewrite Hrun; cbn [events context].
    - rewrite catchBlock_run. cbn [events context].
      destruct (ctx_redirected (context s)); cbn [fst snd events];
        constructor; repeat (apply Forall_app; split); auto using pushOrCsp_preparing.
    - cbn [fst snd events]. rewrite <- Hhtml, app_assoc. constructor.
      repeat (apply Forall_app; split); auto using pushOrCsp_preparing. }
  assert (Hplain :
            Run (events (snd (try_catch (afterETag p url result) catchBlock s)))
                (fst (try_catch (afterETag p url result) catchBlock s))).
  { destruct (afterETag_shape p url result s)
      as [pre [Hpre [[err Hrun] | [r [Hhtml Hrun]]]]];
      unfold try_catch; rewrite Hrun; cbn [events context].
    - rewrite catchBlock_run. cbn [events context].
      destruct (ctx_redirected (context s)); cbn [fst snd events];
        constructor; apply Forall_app; split; auto using pushOrCsp_preparing.
    - cbn [fst snd events]. rewrite <- Hhtml, app_assoc. constructor.
      apply Forall_app; split; auto using pushOrCsp_preparing. }
  remember (try_catch (responding p req url result) catchBlock s) as out eqn:Hout.
  unfold try_catch, respond in Hout.
  destruct (redirected result).
  - unfold bind, routeDone, bind, get_context, emit, ret in Hout.
    subst out. cbn [fst snd events context]. constructor. exact Hs.
  - unfold setErrorStatus in Hout. destruct (error result) as [e |].
    + unfold bind at 1 2 in Hout. unfold get_context at 1 in Hout.
      destruct (ctx_nuxt (context s)) as [nuxtState |].
      * destruct (nuxt_error nuxtState) as [e' |].
        -- unfold emit at 1 in Hout. subst out. apply Hafter. exact I.
        -- unfold throw in Hout. rewrite catchBlock_run in Hout. subst out.
           destruct (ctx_redirected (context s)); cbn [fst snd events]; constructor; exact Hs.
      * unfold throw in Hout. rewrite catchBlock_run in Hout. subst out.
        destruct (ctx_redirected (context s)); cbn [fst snd events]; constructor; exact Hs.
    + unfold bind at 1 in Hout. unfold ret at 1 in Hout.
      destruct (etag (render (options p))) as [etagOptions |].
      * destruct (fresh (req_headers req) (generateETag (html result) etagOptions)).
        -- unfold bind, routeDone, bind, get_context, emit, ret in Hout.
           subst out. cbn [fst snd events context].
           rewrite <- !app_assoc. cbn [app].
           change (events s ++ SetStatus 304 :: End None
                     :: [CallHook "render:routeDone" url result (context s)])
             with (events s ++ [SetStatus 304]
                     ++ [End None; CallHook "render:routeDone" url result (context s)]).
           rewrite app_assoc. constructor.
           apply Forall_app. split; [exact Hs | repeat constructor].
        -- unfold bind at 1 in Hout. unfold emit at 1 in Hout. subst out.
           apply Hafter. exact I.
      * subst out. exact Hplain.
Qed.

(** Every run of the handler has one of the forms of [Run]. *)
Lemma middleware_run (p : Params) (req : Request) :
  Run (events (snd (middleware p req))) (fst (middleware p req)).
Proof.
  unfold nuxtMiddleware.
  destruct (decodeURI (req_url req)) as [url | err]; [| constructor].
  unfold bind at 1. unfold emit at 1. cbn [events context app].
  unfold try_catch, tryBlock, awaitRenderRoute, awaitRenderRouteHook.
  unfold bind, emit, get_context, put_context, lift, ret; cbn [events context app].
  destruct (renderRoute p url (getContext req)) as [[before | err] c0];
    cbn [render_outcome render_context].
  - destruct (callHook (nuxt p) "render:route" url before c0)
      as [[[] | err] result ctx]; cbn [hook_outcome hook_result hook_context].
    + apply (respond_run p req url result
               {| events := [SetStatus 200; CallHook "render:route" url before c0];
                  context := ctx |}).
      repeat constructor.
    + rewrite catchBlock_run. cbn [events context].
      destruct (ctx_redirected ctx); cbn [fst snd events];
        change [SetStatus 200; CallHook "render:route" url before c0; ?e]
          with ([SetStatus 200; CallHook "render:route" url before c0] ++ [e]);
        constructor; repeat constructor.
  - rewrite catchBlock_run. cbn [events context].
    destruct (ctx_redirected c0); cbn [fst snd events];
      constructor; repeat constructor.
Qed.

Lemma preparing_observations (pre : list Event) :
  Forall preparing pre ->
  bodiesWritten pre = [] /\ forwarded pre = [] /\ logged pre = []
  /\ hookCalls "render:routeDone" pre = []
  /\ forall rest, afterEnd (pre ++ rest) = afterEnd rest.
Proof.
  induction 1 as [| e pre He _ [Hb [Hf [Hl [Hh Ha]]]]].
  - repeat split; reflexivity.
  - destruct e; simpl in He; try contradiction;
      cbn [bodiesWritten forwarded logged hookCalls flat_map app afterEnd];
      try (repeat split; assumption).
    subst name. repeat split; assumption.
Qed.

Lemma Run_after_end (evs : list Event) (o : Outcome ReturnValue) :
  Run evs o ->
  (length (bodiesWritten evs) <= 1)%nat
  /\ headersSet (afterEnd evs) = []
  /\ statusCodes (afterEnd evs) = []
  /\ bodiesWritten (afterEnd evs) = []
  /\ forwarded (afterEnd evs) = []
  /\ logged (afterEnd evs) = []
  /\ (afterEnd evs = []
      \/ exists url result context,
           afterEnd evs = [CallHook "render:routeDone" url result context]).
Proof.
  intros Hrun.
  destruct Hrun as [pre err Hpre | pre err Hpre | pre url r c Hpre | pre url r c Hpre
                   | pre url r c Hpre | err];
    try (destruct (preparing_observations pre Hpre) as [Hb [_ [_ [_ Ha]]]];
         unfold bodiesWritten in *; rewrite flat_map_app, Hb, Ha);
    simpl; repeat split; auto;
    right; exists url, r, c; reflexivity.
Qed.

(** The response is ended at most once, and once it is ended the handler
    sets no header and no status, does not end it again and hands no error
    to [next] or to the logger: all it still does is dispatch
    [render:routeDone]. *)
Theorem nothing_follows_res_end (p : Params) (req : Request) :
  (length (bodiesWritten (events (snd (middleware p req)))) <= 1)%nat
  /\ headersSet (afterEnd (events (snd (middleware p req)))) = []
  /\ statusCodes (afterEnd (events (snd (middleware p req)))) = []
  /\ bodiesWritten (afterEnd (events (snd (middleware p req)))) = []
  /\ forwarded (afterEnd (events (snd (middleware p req)))) = []
  /\ logged (afterEnd (events (snd (middleware p req)))) = []
  /\ (afterEnd (events (snd (middleware p req))) = []
      \/ exists url result context,
           afterEnd (events (snd (middleware p req)))
           = [CallHook "render:routeDone" url result context]).
Proof. exact (Run_after_end _ _ (middleware_run p req)). Qed.

Lemma middleware_returns (p : Params) (req : Request) (url : string) :
  decodeURI (req_url req) = Returned url ->
  exists v, fst (middleware p req) = Returned v.
Proof.
  intros Hurl. unfold nuxtMiddleware. rewrite Hurl.
  unfold bind at 1. unfold emit at 1. unfold try_catch.
  destruct (tryBlock generateETag fresh p req url _) as [[v | err] s'].
  - exists v. reflexivity.
  - rewrite catchBlock_run. destruct (ctx_redirected (context s')); eexists; reflexivity.
Qed.

(** Once the URL is decoded, a request ends in exactly one of three ways,
    and only once: [render:routeDone] is dispatched, or the error is passed to
    [next], or it is logged with [consola.error]. *)
Theorem exactly_one_conclusion (p : Params) (req : Request) (url : string) :
  decodeURI (req_url req) = Returned url ->
  (length (hookCalls "render:routeDone" (events (snd (middleware p req))))
   + length (forwarded (events (snd (middleware p req))))
   + length (logged (events (snd (middleware p req)))) = 1)%nat.
Proof.
  intros Hurl. destruct (middleware_returns p req url Hurl) as [v Hv].
  pose proof (middleware_run p req) as Hrun. rewrite Hv in Hrun.
  remember (events (snd (middleware p req))) as evs eqn:Hevs. clear Hevs.
  remember (Returned v) as o eqn:Ho.
  destruct Hrun as [pre err Hpre | pre err Hpre | pre u r c Hpre | pre u r c Hpre
                   | pre u r c Hpre | err];
    try discriminate Ho;
    destruct (preparing_observations pre Hpre) as [_ [Hf [Hl [Hh _]]]];
    unfold hookCalls, forwarded, logged in *;
    rewrite !flat_map_app, Hf, Hl, Hh; reflexivity.
Qed.

(** Whenever a body is written, it is the HTML that the handler returns, and
    the headers sent with it are Content-Type [text/html; charset=utf-8],
    Accept-Ranges [none] and a Content-Length equal to the length of that
    body. *)
Theorem body_written_with_its_length (p : Params) (req : Request) (body : string) :
  In (Some body) (bodiesWritten (events (snd (middleware p req)))) ->
  fst (middleware p req) = Returned (RetHtml body)
  /\ bodiesWritten (events (snd (middleware p req))) = [Some body]
  /\ headerValue "Content-Length" (events (snd (middleware p req)))
     = Some (HNumber (Z.of_nat (String.length body)))
  /\ headerValue "Content-Type" (events (snd (middleware p req)))
     = Some (HString "text/html; charset=utf-8")
  /\ headerValue "Accept-Ranges" (events (snd (middleware p req)))
     = Some (HString "none").
Proof.
  pose proof (middleware_run p req) as Hrun.
  remember (events (snd (middleware p req))) as evs eqn:Hevs. clear Hevs.
  remember (fst (middleware p req)) as o eqn:Ho. clear Ho.
  destruct Hrun as [pre err Hpre | pre err Hpre | pre u r c Hpre | pre u r c Hpre
                   | pre u r c Hpre | err];
    try (destruct (preparing_observations pre Hpre) as [Hb _];
         unfold bodiesWritten in *; rewrite flat_map_app, Hb);
    simpl; intros Hin.
  - destruct Hin.
  - destruct Hin.
  - destruct Hin.
  - destruct Hin as [Hin | []]. discriminate Hin.
  - destruct Hin as [Hin | []]. injection Hin as Hin. subst body.
    rewrite !headerValue_app. repeat split; reflexivity.
  - destruct Hin.
Qed.

End AllRuns.

(** ** The ETag header and the missing error object *)

Lemma pushOrCsp_observations (pre : list Event) :
  Forall pushOrCsp pre -> headerValue "ETag" pre = None /\ statusCodes pre = [].
Proof.
  induction 1 as [| e pre He _ [Hv Hs]]; [split; reflexivity |].
  change (e :: pre) with ([e] ++ pre).
  rewrite headerValue_app, Hv, statusCodes_app, Hs.
  destruct e as [code | name v | body | hook u r c | msg | err | err];
    cbn [pushOrCsp] in He; try contradiction; [| split; reflexivity].
  split; [| reflexivity].
  unfold headerValue. cbn [fold_left headerStep].
  destruct (String.eqb_spec "ETag" name) as [Heq | _]; [| reflexivity].
  symmetry in Heq. contradiction.
Qed.

Section EdgeCases.

Variable getContext : Request -> Context.
Variable decodeURI : string -> Outcome string.
Variable generateETag : string -> EtagOptions -> string.
Variable fresh : list (string * string) -> string -> bool.

Local Notation "'middleware'" := (nuxtMiddleware getContext decodeURI generateETag fresh).

Variables (p : Params) (req : Request) (url : string).
Variables (before result : RenderResult) (c0 ctx : Context).

Hypothesis Hurl : decodeURI (req_url req) = Returned url.
Hypothesis Hrender :
  renderRoute p url (getContext req)
  = {| render_outcome := Returned before; render_context := c0 |}.
Hypothesis Hhook :
  callHook (nuxt p) "render:route" url before c0
  = {| hook_outcome := Returned tt; hook_result := result; hook_context := ctx |}.

(** With [etag] enabled, on a result that is neither redirected nor an error
    and for a request that is not fresh, the ETag header is the first header
    set, its value is the tag of the HTML, and the status stays 200; this
    holds whatever the push and CSP blocks do afterwards, also when one of
    them throws and the error goes to [next]. *)
Theorem etag_header_set_first (etagOptions : EtagOptions) :
  redirected result = false ->
  error result = None ->
  etag (render (options p)) = Some etagOptions ->
  fresh (req_headers req) (generateETag (html result) etagOptions) = false ->
  headerValue "ETag" (events (snd (middleware p req)))
  = Some (HString (generateETag (html result) etagOptions))
  /\ hd_error (headersSet (events (snd (middleware p req)))) = Some "ETag"
  /\ statusCodes (events (snd (middleware p req))) = [200].
Proof.
  intros Hred Herr Hetag Hfresh.
  assert (Hnm : notModified generateETag fresh p req result = false).
  { unfold notModified. rewrite Hred, Herr, Hetag, Hfresh. reflexivity. }
  rewrite (middleware_rendered getContext decodeURI generateETag fresh p req url
             before result c0 ctx Hurl Hrender Hhook).
  unfold try_catch.
  rewrite (respond_normal generateETag fresh p req url result _ Hred Herr Hnm).
  unfold etagEvents. rewrite Hetag. unfold rendered_state. cbn [events context app].
  set (tag := generateETag (html result) etagOptions).
  destruct (afterETag_shape p url result
              {| events := [SetStatus 200; CallHook "render:route" url before c0;
                            SetHeader "ETag" (HString tag)];
                 context := ctx |})
    as [pre [Hpre [[err Hrun] | [r [_ Hrun]]]]];
    rewrite Hrun; destruct (pushOrCsp_observations pre Hpre) as [Hv Hs].
  - rewrite catchBlock_run. cbn [events context].
    destruct (ctx_redirected ctx); cbn [snd events];
      rewrite !headerValue_app, !statusCodes_app, Hv, Hs; repeat split; reflexivity.
  - cbn [snd events].
    rewrite !headerValue_app, !statusCodes_app, Hv, Hs. repeat split; reflexivity.
Qed.

(** When the render result carries an error but the context has no error
    object to read the status from ([context.nuxt] missing, or its [error]
    null), line 29 throws: with [context.redirected] falsy the TypeError goes
    to [next], the status stays 200, and no header is set, no body written
    and no [render:routeDone] dispatched. *)
Theorem error_without_context_error (e : NuxtError) :
  redirected result = false ->
  error result = Some e ->
  ctx_redirected ctx = false ->
  (ctx_nuxt ctx = None \/ ctx_nuxt ctx = Some {| nuxt_error := None |}) ->
  (exists message,
     forwarded (events (snd (middleware p req))) = [TypeError message])
  /\ fst (middleware p req) = Returned RetUndefined
  /\ statusCodes (events (snd (middleware p req))) = [200]
  /\ headersSet (events (snd (middleware p req))) = []
  /\ bodiesWritten (events (snd (middleware p req))) = []
  /\ hookCalls "render:routeDone" (events (snd (middleware p req))) = [].
Proof.
  intros Hred Herr Hnot Hmissing.
  assert (Hrun : exists message,
             middleware p req
             = (Returned RetUndefined,
                {| events := [SetStatus 200; CallHook "render:route" url before c0;
                              Next (TypeError message)];
                   context := ctx |})).
  { rewrite (middleware_rendered getContext decodeURI generateETag fresh p req url
               before result c0 ctx Hurl Hrender Hhook).
    unfold try_catch, respond, setErrorStatus. rewrite Hred, Herr.
    unfold bind at 1 2. unfold get_context at 1. unfold rendered_state. cbn [context].
    destruct Hmissing as [Hnuxt | Hnuxt]; rewrite Hnuxt; cbn [nuxt_error];
      unfold throw; rewrite catchBlock_run; cbn [context events]; rewrite Hnot;
      eexists; reflexivity. }
  destruct Hrun as [message Hrun]. rewrite Hrun. cbn [fst snd events].
  split; [exists message; reflexivity | repeat split; reflexivity].
Qed.

End EdgeCases.

(** ** The further properties on concrete inputs *)

Lemma hash_set_grows_at_the_end_witness :
  let pol := [("script-src", PArray ["https://cdn.example.com"; "'sha256-abc'"])] in
  NoDup (snd (transformPolicyObject pol ["'sha256-abc'"; "'sha256-def'"]))
  /\ exists added,
       snd (transformPolicyObject pol ["'sha256-abc'"; "'sha256-def'"])
       = ["'sha256-abc'"; "'sha256-def'"] ++ added.
Proof.
  intros pol. apply (hash_set_grows_at_the_end pol ["'sha256-abc'"; "'sha256-def'"]).
  repeat constructor; simpl; intuition discriminate.
Defined.

Lemma policy_values_must_be_arrays_witness :
  (exists value,
     fst (getCspString ["'sha256-abc'"] None
            (Some [("default-src", PArray ["'none'"]); ("script-src", PString "'none'")])
            false) = Returned value)
  /\ fst (getCspString ["'sha256-abc'"] None
            (Some [("img-src", PString "'self'"); ("script-src", PArray [])]) false)
     = Threw (TypeError "v.join is not a function").
Proof.
  split.
  - apply (policy_values_must_be_arrays
             [("default-src", PArray ["'none'"]); ("script-src", PString "'none'")]
             ["'sha256-abc'"] false).
    + repeat constructor; simpl; intuition discriminate.
    + reflexivity.
  - apply (policy_values_must_be_arrays
             [("img-src", PString "'self'"); ("script-src", PArray [])]
             ["'sha256-abc'"] false).
    + repeat constructor; simpl; intuition discriminate.
    + reflexivity.
Defined.

Lemma shouldPush_decides_witness :
  let o := ex_options_http2
             {| push := true; shouldPush := Some ex_fontsOnly; pushAssets := None |}
             None true in
  defaultPushAssets ex_files (Some ex_fontsOnly) "/_nuxt/" o
    (initial_state ex_getContext (ex_request []))
  = (Returned ["</_nuxt/a.woff2>; rel=preload; crossorigin=anonymous; as=font"],
     {| events := [SetStatus 200;
                   ConsolaWarn "http2.shouldPush is deprecated. Use http2.pushAssets function"];
        context := ex_getContext (ex_request []) |}).
Proof.
  intros o.
  apply (shouldPush_decides ex_fontsOnly (fun _ asType => String.eqb asType "font")
           "/_nuxt/" o ex_files (initial_state ex_getContext (ex_request []))).
  intros entry _. reflexivity.
Defined.

Lemma shouldPush_exception_aborts_witness :
  let o := ex_options_http2
             {| push := true; shouldPush := Some ex_throwsOnStyle; pushAssets := None |}
             None false in
  defaultPushAssets ex_files (Some ex_throwsOnStyle) "/_nuxt/" o
    (initial_state ex_getContext (ex_request []))
  = (Threw (Thrown "shouldPush failed"), initial_state ex_getContext (ex_request [])).
Proof.
  intros o.
  apply (shouldPush_exception_aborts ex_throwsOnStyle "/_nuxt/" o
           [{| file := "app.js"; asType := "script"; fileWithoutQuery := "app.js";
               modern := false |}]
           {| file := "app.css"; asType := "style"; fileWithoutQuery := "app.css";
              modern := false |}
           [{| file := "a.woff2"; asType := "font"; fileWithoutQuery := "a.woff2";
               modern := false |};
            {| file := "m.js?v=1"; asType := "script"; fileWithoutQuery := "m.js";
               modern := true |}]
           (Thrown "shouldPush failed") (initial_state ex_getContext (ex_request []))).
  - intros x [Hx | []]. subst x. exists true. reflexivity.
  - reflexivity.
Defined.

Lemma shouldPush_link_header_witness :
  (let p := ex_params
              (ex_options_http2
                 {| push := true; shouldPush := Some ex_rejectAll; pushAssets := None |}
                 None false)
              (ex_renderRoute (ex_result None false) (ex_context None false)) in
   headerValue "Link" (events (snd (ex_middleware p (ex_request [])))) = None
   /\ ~ In "Link" (headersSet (events (snd (ex_middleware p (ex_request []))))))
  /\ (let p := ex_params
                 (ex_options_http2
                    {| push := true; shouldPush := Some ex_fontsOnly; pushAssets := None |}
                    None false)
                 (ex_renderRoute (ex_result None false) (ex_context None false)) in
      headerValue "Link" (events (snd (ex_middleware p (ex_request []))))
      = Some (HString "</_nuxt/a.woff2>; rel=preload; crossorigin=anonymous; as=font")).
Proof.
  split; intros p.
  - destruct (shouldPush_link_header ex_getContext ex_decodeURI ex_generateETag ex_fresh
                p (ex_request []) "/about"
                (ex_result None false) (ex_result None false)
                (ex_context None false) (ex_context None false)
                eq_refl eq_refl eq_refl eq_refl eq_refl eq_refl
                ex_rejectAll (fun _ _ => false) ex_files {| publicPath := "/_nuxt/" |}
                eq_refl eq_refl eq_refl eq_refl eq_refl
                (fun entry _ => eq_refl)) as [Hvalue Hnone].
    split; [exact Hvalue | apply Hnone; intros entry _; reflexivity].
  - destruct (shouldPush_link_header ex_getContext ex_decodeURI ex_generateETag ex_fresh
                p (ex_request []) "/about"
                (ex_result None false) (ex_result None false)
                (ex_context None false) (ex_context None false)
                eq_refl eq_refl eq_refl eq_refl eq_refl eq_refl
                ex_fontsOnly (fun _ asType => String.eqb asType "font") ex_files
                {| publicPath := "/_nuxt/" |}
                eq_refl eq_refl eq_refl eq_refl eq_refl
                (fun entry _ => eq_refl)) as [Hvalue _].
    exact Hvalue.
Defined.

Lemma pushAssets_link_header_witness :
  let p := ex_params
             (ex_options_http2
                {| push := true; shouldPush := Some ex_rejectAll;
                   pushAssets := Some ex_pushAssets |}
                None true)
             (ex_renderRoute (ex_result None false) (ex_context None false)) in
  headerValue "Link" (events (snd (ex_middleware p (ex_request []))))
  = Some (HString "</_nuxt/app.js>, </_nuxt/app.css>, </_nuxt/a.woff2>, </_nuxt/m.js>")
  /\ warnings (events (snd (ex_middleware p (ex_request [])))) = [].
Proof.
  intros p.
  exact (pushAssets_link_header ex_getContext ex_decodeURI ex_generateETag ex_fresh
           p (ex_request []) "/about"
           (ex_result None false) (ex_result None false)
           (ex_context None false) (ex_context None false)
           eq_refl eq_refl eq_refl eq_refl eq_refl eq_refl
           ex_pushAssets ex_files
           ["</_nuxt/app.js>"; "</_nuxt/app.css>"; "</_nuxt/a.woff2>"; "</_nuxt/m.js>"]
           {| publicPath := "/_nuxt/" |}
           eq_refl eq_refl eq_refl eq_refl eq_refl).
Defined.

Lemma routeDone_sees_updated_hash_set_witness :
  let p := ex_params (ex_options None false (Some ex_csp_policies))
             (ex_renderRoute (ex_result None false) (ex_context None false)) in
  hookCalls "render:routeDone" (events (snd (ex_middleware p (ex_request []))))
  = [withHashSet (ex_result None false) ["'sha256-abc'"; "'self'"]]
  /\ hookCalls "render:route" (events (snd (ex_middleware p (ex_request []))))
     = [ex_result None false].
Proof.
  intros p.
  exact (routeDone_sees_updated_hash_set ex_getContext ex_decodeURI ex_generateETag ex_fresh
           p (ex_request []) "/about"
           (ex_result None false) (ex_result None false)
           (ex_context None false) (ex_context None false)
           eq_refl eq_refl eq_refl eq_refl eq_refl eq_refl
           ex_csp_policies "default-src 'none'; script-src 'sha256-abc' 'self'"
           ["'sha256-abc'"; "'self'"]
           eq_refl eq_refl eq_refl).
Defined.

Lemma exactly_one_conclusion_witness :
  let p := ex_params (ex_options None false None)
             (ex_failing_renderRoute (ex_context None false)) in
  (length (hookCalls "render:routeDone" (events (snd (ex_middleware p (ex_request [])))))
   + length (forwarded (events (snd (ex_middleware p (ex_request [])))))
   + length (logged (events (snd (ex_middleware p (ex_request []))))) = 1)%nat.
Proof.
  intros p.
  exact (exactly_one_conclusion ex_getContext ex_decodeURI ex_generateETag ex_fresh
           p (ex_request []) "/about" eq_refl).
Defined.

Lemma body_written_with_its_length_witness :
  let p := ex_params (ex_options (Some {| weak := true |}) true (Some ex_csp_flat))
             (ex_renderRoute (ex_result None false) (ex_context None false)) in
  fst (ex_middleware p (ex_request [])) = Returned (RetHtml "<html></html>")
  /\ headerValue "Content-Length" (events (snd (ex_middleware p (ex_request []))))
     = Some (HNumber 13).
Proof.
  intros p.
  destruct (body_written_with_its_length ex_getContext ex_decodeURI ex_generateETag
              ex_fresh p (ex_request []) "<html></html>")
    as [Hvalue [_ [Hlength _]]].
  - simpl. left. reflexivity.
  - split; [exact Hvalue | exact Hlength].
Defined.

Lemma etag_header_set_first_witness :
  let p := {| options := ex_options (Some {| weak := true |}) true None;
              nuxt := ex_nuxt;
              renderRoute := ex_renderRoute (ex_result None false) (ex_context None false);
              resources := {| clientManifest := None |} |} in
  headerValue "ETag" (events (snd (ex_middleware p (ex_request []))))
  = Some (HString "W/<html></html>")
  /\ hd_error (headersSet (events (snd (ex_middleware p (ex_request []))))) = Some "ETag"
  /\ statusCodes (events (snd (ex_middleware p (ex_request [])))) = [200].
Proof.
  intros p.
  exact (etag_header_set_first ex_getContext ex_decodeURI ex_generateETag ex_fresh
           p (ex_request []) "/about"
           (ex_result None false) (ex_result None false)
           (ex_context None false) (ex_context None false)
           eq_refl eq_refl eq_refl
           {| weak := true |} eq_refl eq_refl eq_refl eq_refl).
Defined.

Lemma error_without_context_error_witness :
  let failure := {| statusCode := Some 404 |} in
  let p := ex_params (ex_options (Some {| weak := true |}) true (Some ex_csp_flat))
             (ex_renderRoute (ex_result (Some failure) false)
                {| ctx_redirected := false; ctx_nuxt := None |}) in
  fst (ex_middleware p (ex_request [])) = Returned RetUndefined
  /\ statusCodes (events (snd (ex_middleware p (ex_request [])))) = [200]
  /\ headersSet (events (snd (ex_middleware p (ex_request [])))) = []
  /\ bodiesWritten (events (snd (ex_middleware p (ex_request [])))) = []
  /\ hookCalls "render:routeDone" (events (snd (ex_middleware p (ex_request [])))) = [].
Proof.
  intros failure p.
  destruct (error_without_context_error ex_getContext ex_decodeURI ex_generateETag ex_fresh
              p (ex_request []) "/about"
              (ex_result (Some failure) false) (ex_result (Some failure) false)
              {| ctx_redirected := false; ctx_nuxt := None |}
              {| ctx_redirected := false; ctx_nuxt := None |}
              eq_refl eq_refl eq_refl
              failure eq_refl eq_refl eq_refl (or_introl eq_refl)) as [_ Hrest].
  exact Hrest.
Defined.
